(** * Collectable attributes and state variables (mvpa/misc/attributes.py)

    A shallow embedding of the two classes of [mvpa.misc.attributes]:
    [CollectableAttribute] and its specialisation [StateVariable].

    Python objects are mutable and methods may raise, so every method is a
    computation in a state-and-exception monad.  The state of a method is
    the receiver ([self]) together with the process-wide state: the class
    attribute [CollectableAttribute._instance_index], the store of list
    objects that attribute values may point to, and the debug switches. *)

From Stdlib Require Import ZArith List String Ascii Bool Lia Sorted.
Import ListNotations.

Local Open Scope Z_scope.
Local Open Scope string_scope.
Local Open Scope list_scope.

(** ** Python values *)

(** Locations of list objects in the store. *)
Definition loc := nat.

(** The fragment of Python values an attribute's name, doc and value range
    over here: [None], booleans, integers (unbounded in Python 2, [int]
    promotes to [long]), strings, and references to mutable list objects. *)
Inductive pyval : Type :=
| VNone
| VBool (b : bool)
| VInt (z : Z)
| VStr (s : string)
| VRef (l : loc).

(** The store of list objects: the object at location [l] is the [l]-th
    entry; a new object goes at the end, so its location is fresh. *)
Definition heap := list (list pyval).

(** [x is None] *)
Definition is_None (v : pyval) : bool :=
  match v with VNone => true | _ => false end.

(** [isinstance(x, basestring)] *)
Definition isinstance_basestring (v : pyval) : bool :=
  match v with VStr _ => true | _ => false end.

(** ** Exceptions and the monad *)

Inductive exn : Type :=
| ValueError          (* the invalid-name error of [_setName] *)
| UnknownStateError   (* mvpa.misc.exceptions.UnknownStateError *)
| IndexError          (* indexing past the end of a string *)
| TypeError           (* indexing a value that is not a sequence *)
| AttributeError      (* reading an instance attribute not yet assigned *)
| DanglingReference.  (* a [VRef] outside the store: no Python state has one *)

Inductive outcome (A : Type) : Type :=
| Ok (a : A)
| Raise (e : exn).
Arguments Ok {A} a.
Arguments Raise {A} e.

(** A computation over a state [S]: an exception keeps the state reached
    when it was raised (Python does not roll back). *)
Definition ST (S A : Type) : Type := S -> outcome A * S.

Definition ret {S A} (a : A) : ST S A := fun s => (Ok a, s).

Definition raise {S A} (e : exn) : ST S A := fun s => (Raise e, s).

Definition bind {S A B} (m : ST S A) (k : A -> ST S B) : ST S B :=
  fun s =>
    match m s with
    | (Ok a, s') => k a s'
    | (Raise e, s') => (Raise e, s')
    end.

Definition gets {S A} (f : S -> A) : ST S A := fun s => (Ok (f s), s).

Definition modify {S} (f : S -> S) : ST S unit := fun s => (Ok tt, f s).

Declare Scope py_scope.
Delimit Scope py_scope with py.
Notation "x <- m ;; k" := (bind m (fun x => k))
  (at level 61, m at next level, right associativity) : py_scope.
Notation "m ;; k" := (bind m (fun _ => k))
  (at level 61, right associativity) : py_scope.
Local Open Scope py_scope.

(** ** Process-wide state *)

Record world : Type := mkWorld {
  (** the class attribute [CollectableAttribute._instance_index] *)
  CollectableAttribute__instance_index : Z;
  (** the list objects *)
  lists : heap;
  (** Python's [__debug__] (false under [python -O]) *)
  __debug__ : bool;
  (** [debug.active] of [mvpa.base] *)
  debug_active : list string
}.

Definition with_counter (c : Z) (w : world) : world :=
  mkWorld c (lists w) (__debug__ w) (debug_active w).

Definition with_lists (h : heap) (w : world) : world :=
  mkWorld (CollectableAttribute__instance_index w) h (__debug__ w)
          (debug_active w).

(** ['X' in debug.active] *)
Definition is_active (category : string) (w : world) : bool :=
  existsb (String.eqb category) (debug_active w).

(** Computations on the process-wide state alone. *)
Definition W : Type -> Type := ST world.

(** ** Instances *)

Inductive klass : Type :=
| CollectableAttribute
| StateVariable.

(** The instance dictionary.  [_isenabled] and [_defaultenabled] exist
    only once [StateVariable.__init__] has assigned them. *)
Record attribute : Type := mkAttribute {
  __class__ : klass;
  _instance_index : Z;
  __doc__ : pyval;
  __name : pyval;
  _value : pyval;
  _isset : bool;
  _isenabled : option bool;
  _defaultenabled : option bool
}.

Definition with__name (n : pyval) (o : attribute) : attribute :=
  mkAttribute (__class__ o) (_instance_index o) (__doc__ o) n (_value o)
              (_isset o) (_isenabled o) (_defaultenabled o).

Definition with__value (v : pyval) (o : attribute) : attribute :=
  mkAttribute (__class__ o) (_instance_index o) (__doc__ o) (__name o) v
              (_isset o) (_isenabled o) (_defaultenabled o).

Definition with__isset (b : bool) (o : attribute) : attribute :=
  mkAttribute (__class__ o) (_instance_index o) (__doc__ o) (__name o)
              (_value o) b (_isenabled o) (_defaultenabled o).

Definition with__isenabled (b : bool) (o : attribute) : attribute :=
  mkAttribute (__class__ o) (_instance_index o) (__doc__ o) (__name o)
              (_value o) (_isset o) (Some b) (_defaultenabled o).

Definition with__defaultenabled (b : bool) (o : attribute) : attribute :=
  mkAttribute (__class__ o) (_instance_index o) (__doc__ o) (__name o)
              (_value o) (_isset o) (_isenabled o) (Some b).

(** Method bodies: the state is the receiver and the world. *)
Definition M : Type -> Type := ST (attribute * world).

(** [self.<field>] *)
Definition getattr {A} (f : attribute -> A) : M A := gets (fun s => f (fst s)).

(** [self.<field> = ...] *)
Definition setattr (upd : attribute -> attribute) : M unit :=
  modify (fun s => (upd (fst s), snd s)).

(** Reading a global. *)
Definition global {A} (f : world -> A) : M A := gets (fun s => f (snd s)).

(** A computation on the world, run from inside a method. *)
Definition liftW {A} (m : W A) : M A :=
  fun s => let (r, w') := m (snd s) in (r, (fst s, w')).

(** [m] run with [o] as receiver; yields [o] as [m] left it. *)
Definition run_on {A} (o : attribute) (m : M A) : W (A * attribute) :=
  fun w =>
    match m (o, w) with
    | (Ok a, (o', w')) => (Ok (a, o'), w')
    | (Raise e, (_, w')) => (Raise e, w')
    end.

(** [debug(category, msg)]: emits a trace message when the category is
    active; the output stream is not part of the model. *)
Definition debug (category : string) : M unit := ret tt.

(** ** class CollectableAttribute *)

(** [_get(self)]: [return self._value] *)
Definition CollectableAttribute__get : M pyval := getattr _value.

(** [_set(self, val, init=False)]: the debug call, then
    [self._value = val; self._isset = True]. *)
Definition CollectableAttribute__set (val : pyval) (init : bool) : M unit :=
  d <- global __debug__ ;;
  (if d then debug "COL" else ret tt) ;;
  setattr (with__value val) ;;
  setattr (with__isset true).

(** The property [isSet]: [return self._isset] *)
Definition CollectableAttribute_isSet : M bool := getattr _isset.

(** [_getName(self)], also the read-only property [name] *)
Definition CollectableAttribute__getName : M pyval := getattr __name.

(** [reset(self)]: "Simply reset the flag" *)
Definition CollectableAttribute_reset : M unit :=
  d <- global __debug__ ;;
  s <- getattr _isset ;;
  (if d && s then debug "COL" else ret tt) ;;
  setattr (with__isset false).

(** [name[0]] *)
Definition getitem0 (name : pyval) : M ascii :=
  match name with
  | VStr (String c _) => ret c
  | VStr EmptyString => raise IndexError
  | _ => raise TypeError
  end.

(** [_setName(self, name)] *)
Definition CollectableAttribute__setName (name : pyval) : M unit :=
  (if negb (is_None name) then
     if isinstance_basestring name then
       c <- getitem0 name ;;
       if Ascii.eqb c "_" then raise ValueError else ret tt
     else
       raise ValueError
   else ret tt) ;;
  setattr (with__name name).

(** ** class StateVariable(CollectableAttribute) *)

(** The property [isEnabled]: [return self._isenabled] *)
Definition StateVariable_isEnabled : M bool :=
  e <- getattr _isenabled ;;
  match e with
  | Some b => ret b
  | None => raise AttributeError
  end.

(** [_get(self)]: raises when [not self.isSet], else the base [_get]. *)
Definition StateVariable__get : M pyval :=
  s <- CollectableAttribute_isSet ;;
  if negb s then raise UnknownStateError
  else CollectableAttribute__get.

(** [_set(self, val, init=False)]: the base [_set] (without [init]) when
    [self.isEnabled], else only a debug message. *)
Definition StateVariable__set (val : pyval) (init : bool) : M unit :=
  en <- StateVariable_isEnabled ;;
  if en then CollectableAttribute__set val false
  else
    d <- global __debug__ ;;
    if d then debug "COL" else ret tt.

(** [reset(self)]: "Simply detach the value, and reset the flag" *)
Definition StateVariable_reset : M unit :=
  CollectableAttribute_reset ;;
  setattr (with__value VNone).

(** [enable(self, value=False)] *)
Definition StateVariable_enable (value : bool) : M unit :=
  e <- StateVariable_isEnabled ;;
  if Bool.eqb e value then ret tt
  else
    d <- global __debug__ ;;
    (if d then debug "STV" else ret tt) ;;
    setattr (with__isenabled value).

(** ** Method resolution

    [self._get()], [self._set(...)] and [self.reset()] resolve on the class
    of the receiver. *)

Definition self__get : M pyval :=
  c <- getattr __class__ ;;
  match c with
  | CollectableAttribute => CollectableAttribute__get
  | StateVariable => StateVariable__get
  end.

Definition self__set (val : pyval) (init : bool) : M unit :=
  c <- getattr __class__ ;;
  match c with
  | CollectableAttribute => CollectableAttribute__set val init
  | StateVariable => StateVariable__set val init
  end.

Definition self_reset : M unit :=
  c <- getattr __class__ ;;
  match c with
  | CollectableAttribute => CollectableAttribute_reset
  | StateVariable => StateVariable_reset
  end.

(** [_getVirtual] and [_setVirtual], the two halves of the property
    [value = property(_getVirtual, _setVirtual)]. *)
Definition CollectableAttribute__getVirtual : M pyval := self__get.

Definition CollectableAttribute__setVirtual (value : pyval) : M unit :=
  self__set value false.

(** ** Construction *)

(** [CollectableAttribute.__init__(self, name, doc, index, value)] on a new
    instance of class [cls]. *)
Definition CollectableAttribute___init__ (cls : klass) (name doc : pyval)
    (index : option Z) (value : pyval) : W attribute :=
  index <- match index with
           | None =>
               modify (fun w =>
                 with_counter (CollectableAttribute__instance_index w + 1) w) ;;
               gets CollectableAttribute__instance_index
           | Some i => ret i
           end ;;
  r <- run_on (mkAttribute cls index doc name VNone false None None)
         (self_reset ;;
          (if negb (is_None value) then self__set value true else ret tt) ;;
          d <- global __debug__ ;;
          col <- global (is_active "COL") ;;
          if d && col then debug "COL" else ret tt) ;;
  ret (snd r).

(** [StateVariable.__init__(self, name, enabled, doc)] *)
Definition StateVariable___init__ (cls : klass) (name : pyval)
    (enabled : bool) (doc : pyval) : W attribute :=
  d <- gets __debug__ ;;
  enforce <- gets (is_active "ENFORCE_STATES_ENABLED") ;;
  let enabled := if d && enforce then true else enabled in
  self <- CollectableAttribute___init__ cls name doc None VNone ;;
  r <- run_on self
         (setattr (with__isenabled enabled) ;;
          setattr (with__defaultenabled enabled) ;;
          if d then debug "STV" else ret tt) ;;
  ret (snd r).

(** [cls(name=name, doc=doc)], every other argument at its default. *)
Definition new (cls : klass) (name doc : pyval) : W attribute :=
  match cls with
  | CollectableAttribute =>
      CollectableAttribute___init__ CollectableAttribute name doc None VNone
  | StateVariable => StateVariable___init__ StateVariable name true doc
  end.

(** ** Copying *)

(** A new list object holding [items]. *)
Definition alloc (items : list pyval) : W pyval :=
  h <- gets lists ;;
  modify (with_lists (h ++ [items])) ;;
  ret (VRef (List.length h)).

(** [copy.copy(x)].  The module imports [mvpa.support.copy as copy], which
    hands out the [copy] and [deepcopy] of Python's own [copy] module;
    [__copy__] calls [copy.copy], the shallow one, and says so at the call
    ("just get a view of the old data!").  An immutable value is returned
    as it is; a list becomes a new list object with the same items. *)
Definition copy_copy (x : pyval) : W pyval :=
  match x with
  | VRef l =>
      h <- gets lists ;;
      match nth_error h l with
      | Some items => alloc items
      | None => raise DanglingReference
      end
  | _ => ret x
  end.

(** [__copy__(self)] *)
Definition CollectableAttribute___copy__ : M attribute :=
  cls <- getattr __class__ ;;
  name <- CollectableAttribute__getName ;;
  doc <- getattr __doc__ ;;
  copied <- liftW (new cls name doc) ;;
  v <- CollectableAttribute__getVirtual ;;
  v' <- liftW (copy_copy v) ;;
  r <- liftW (run_on copied (CollectableAttribute__setVirtual v')) ;;
  ret (snd r).

(** An in-place change of the list object [x]: its items become
    [f items].  [x.append(item)], [x.pop()], [x[i] = v] and [del x[i]] are
    all of this form. *)
Definition list_mutate (x : pyval) (f : list pyval -> list pyval) : W unit :=
  match x with
  | VRef l =>
      h <- gets lists ;;
      match nth_error h l with
      | Some items =>
          modify (with_lists (firstn l h ++ f items :: skipn (S l) h))
      | None => raise DanglingReference
      end
  | _ => raise AttributeError
  end.

(** [x.append(item)] *)
Definition list_append (x item : pyval) : W unit :=
  list_mutate x (fun items => items ++ [item]).

(** ** Driving the constructors *)

(** A constructor call, with the arguments the two signatures take. *)
Inductive ctor_call : Type :=
| NewCollectableAttribute (name doc : pyval) (index : option Z) (value : pyval)
| NewStateVariable (name : pyval) (enabled : bool) (doc : pyval).

Definition construct (c : ctor_call) : W attribute :=
  match c with
  | NewCollectableAttribute name doc index value =>
      CollectableAttribute___init__ CollectableAttribute name doc index value
  | NewStateVariable name enabled doc =>
      StateVariable___init__ StateVariable name enabled doc
  end.

(** The call leaves [index] out ([StateVariable] has no such argument). *)
Definition index_omitted (c : ctor_call) : bool :=
  match c with
  | NewCollectableAttribute _ _ None _ => true
  | NewCollectableAttribute _ _ (Some _) _ => false
  | NewStateVariable _ _ _ => true
  end.

(** The calls made one after the other; the instances in the same order. *)
Fixpoint construct_in_succession (calls : list ctor_call)
  : W (list attribute) :=
  match calls with
  | [] => ret []
  | c :: rest =>
      o <- construct c ;;
      os <- construct_in_succession rest ;;
      ret (o :: os)
  end.

(** ** Observing values through the store *)

(** A value as a program sees it when it walks the lists down to a depth. *)
#[warnings="-register-all"]
Inductive pytree : Type :=
| TNone
| TBool (b : bool)
| TInt (z : Z)
| TStr (s : string)
| TList (items : list pytree)
| TBelow.

Fixpoint view (depth : nat) (h : heap) (v : pyval) : pytree :=
  match v with
  | VNone => TNone
  | VBool b => TBool b
  | VInt z => TInt z
  | VStr s => TStr s
  | VRef l =>
      match depth with
      | O => TBelow
      | S d =>
          match nth_error h l with
          | Some items => TList (map (view d h) items)
          | None => TBelow
          end
      end
  end.

(** The list objects a value leads to. *)
Inductive reachable (h : heap) : pyval -> loc -> Prop :=
| reach_self (l : loc) : reachable h (VRef l) l
| reach_item (l : loc) (items : list pyval) (x : pyval) (l' : loc) :
    nth_error h l = Some items -> In x items -> reachable h x l' ->
    reachable h (VRef l) l'.

(** No dangling reference: [v] points into the store, and so does every
    item of every list of the store. *)
Definition allocated (h : heap) (v : pyval) : bool :=
  match v with
  | VRef l => Nat.ltb l (List.length h)
  | _ => true
  end.

Definition closed (h : heap) : bool := forallb (forallb (allocated h)) h.

(** The instance [cls(name=name, doc=doc)] builds when the counter hands
    out [index]: nothing stored, and the gate of a [StateVariable] open. *)
Definition blank (cls : klass) (name doc : pyval) (index : Z) : attribute :=
  let gate := match cls with
              | CollectableAttribute => None
              | StateVariable => Some true
              end in
  mkAttribute cls index doc name VNone false gate gate.

(** [v'] in store [h'] is a shallow copy of [v] in store [h]: the same
    value when [v] is immutable, and for a list a new object, at the end
    of the store, holding the same items. *)
Definition is_shallow_copy (h h' : heap) (v v' : pyval) : Prop :=
  match v with
  | VRef l =>
      exists items,
        nth_error h l = Some items
        /\ v' = VRef (List.length h)
        /\ h' = h ++ [items]
  | _ => v' = v /\ h' = h
  end.

(** The copy of [self] owns its value: no in-place change of a list object
    the copy's value leads to changes what the value of [self] looks like,
    to any depth. *)
Definition independent_copy (self : attribute) (w : world) : Prop :=
  forall copied self' w',
    CollectableAttribute___copy__ (self, w) = (Ok copied, (self', w')) ->
    forall (l : loc) (f : list pyval -> list pyval) (w'' : world)
           (depth : nat),
      reachable (lists w') (_value copied) l ->
      list_mutate (VRef l) f w' = (Ok tt, w'') ->
      view depth (lists w'') (_value self) = view depth (lists w') (_value self).

(** The name starts with the reserved prefix character ['_']. *)
Definition starts_with_reserved (s : string) : bool :=
  match s with
  | String c _ => Ascii.eqb c "_"
  | EmptyString => false
  end.

(** ** String forms *)

(** [cls.__name__] *)
Definition klass___name__ (c : klass) : string :=
  match c with
  | CollectableAttribute => "CollectableAttribute"
  | StateVariable => "StateVariable"
  end.

(** [CollectableAttribute.__str__(self)].  ["%s" % x] is Python's own
    formatting of a value living in a store; it comes in as [str_]. *)
Definition CollectableAttribute___str__ (str_ : heap -> pyval -> string)
  : M string :=
  name <- CollectableAttribute__getName ;;
  h <- global lists ;;
  let res := str_ h name in
  s <- CollectableAttribute_isSet ;;
  ret (if s then (res ++ "*")%string else res).

(** [StateVariable.__str__(self)] *)
Definition StateVariable___str__ (str_ : heap -> pyval -> string)
  : M string :=
  res <- CollectableAttribute___str__ str_ ;;
  en <- StateVariable_isEnabled ;;
  ret (if en then (res ++ "+")%string else res).

(** [str(self)] resolves [__str__] on the class. *)
Definition self___str__ (str_ : heap -> pyval -> string) : M string :=
  c <- getattr __class__ ;;
  match c with
  | CollectableAttribute => CollectableAttribute___str__ str_
  | StateVariable => StateVariable___str__ str_
  end.

(** [__repr__(self)], inherited by [StateVariable]; [repr(x)] is Python's
    own and comes in as [repr_]. *)
Definition CollectableAttribute___repr__ (repr_ : heap -> pyval -> string)
  : M string :=
  s <- getattr _isset ;;
  value <- (if negb s then ret VNone else CollectableAttribute__getVirtual) ;;
  cls <- getattr __class__ ;;
  name <- CollectableAttribute__getName ;;
  doc <- getattr __doc__ ;;
  h <- global lists ;;
  ret (klass___name__ cls ++ "(name=" ++ repr_ h name
       ++ ", doc=" ++ repr_ h doc
       ++ ", value=" ++ repr_ h value ++ ")")%string.

(** ** Using an instance *)

(** What a holder of an instance can do to it. *)
Inductive op : Type :=
| OpGet                      (* [x.value] *)
| OpSet (v : pyval)          (* [x.value = v] *)
| OpReset                    (* [x.reset()] *)
| OpEnable (flag : bool)     (* [x.enable(flag)] *)
| OpSetName (name : pyval).  (* [x._setName(name)] *)

(** One use.  The base class has no [enable]: the lookup of the method
    raises [AttributeError]. *)
Definition step (o : op) : M unit :=
  match o with
  | OpGet => CollectableAttribute__getVirtual ;; ret tt
  | OpSet v => CollectableAttribute__setVirtual v
  | OpReset => self_reset
  | OpEnable flag =>
      c <- getattr __class__ ;;
      match c with
      | CollectableAttribute => raise AttributeError
      | StateVariable => StateVariable_enable flag
      end
  | OpSetName name => CollectableAttribute__setName name
  end.

(** Uses one after the other by a holder that catches what is raised and
    goes on: the state each use leaves is the state the next one finds. *)
Definition exec (ops : list op) (s : attribute * world) : attribute * world :=
  fold_left (fun s o => snd (step o s)) ops s.

Definition is_rename (o : op) : bool :=
  match o with OpSetName _ => true | _ => false end.

(** Writes to [self] take effect: any instance of the base class, and a
    [StateVariable] whose gate is open. *)
Definition accepts_writes (self : attribute) : bool :=
  match __class__ self with
  | CollectableAttribute => true
  | StateVariable =>
      match _isenabled self with Some true => true | _ => false end
  end.

(** The indices of the instances whose call left [index] out, in
    construction order. *)
Definition assigned_indices (calls : list ctor_call) (os : list attribute)
  : list Z :=
  map (fun p => _instance_index (snd p))
      (filter (fun p => index_omitted (fst p)) (combine calls os)).

(** A name [_setName] stores: [None], or a string that is not empty and
    does not start with ['_']. *)
Definition valid_name (name : pyval) : bool :=
  match name with
  | VNone => true
  | VStr (String c _) => negb (Ascii.eqb c "_")
  | _ => false
  end.

(** A value with no list inside a list: an immutable value, or a list
    whose items are all immutable. *)
Definition is_atom (v : pyval) : bool :=
  match v with VRef _ => false | _ => true end.

Definition flat (h : heap) (v : pyval) : bool :=
  match v with
  | VRef l =>
      match nth_error h l with
      | Some items => forallb is_atom items
      | None => false
      end
  | _ => true
  end.

(** ** Sample states *)

(** A world with the counter at 0, no list object, no debug category
    active. *)
Definition quiet : world := mkWorld 0 [] true [].

(** [StateVariable("score")], as constructed. *)
Definition score_unset : attribute :=
  mkAttribute StateVariable 1 (VStr "State variable") (VStr "score")
              VNone false (Some true) (Some true).

(** ... after [sv.value = 5]. *)
Definition score_set : attribute :=
  mkAttribute StateVariable 1 (VStr "State variable") (VStr "score")
              (VInt 5) true (Some true) (Some true).

(** ... after [sv.enable(False)]. *)
Definition score_disabled : attribute :=
  mkAttribute StateVariable 1 (VStr "State variable") (VStr "score")
              (VInt 5) true (Some false) (Some true).

(** [CollectableAttribute("weight", value=5)]. *)
Definition weight_set : attribute :=
  mkAttribute CollectableAttribute 1 VNone (VStr "weight")
              (VInt 5) true None None.

(** ... after [ca.reset()]: the flag is down, the slot still holds 5. *)
Definition weight_stale : attribute :=
  mkAttribute CollectableAttribute 1 VNone (VStr "weight")
              (VInt 5) false None None.

(** [CollectableAttribute("weight")], never assigned. *)
Definition weight_unset : attribute :=
  mkAttribute CollectableAttribute 1 VNone (VStr "weight")
              VNone false None None.

(** [CollectableAttribute("weight", value=[1,2,3])]: the list is object 0. *)
Definition flat_store : world :=
  mkWorld 1 [[VInt 1; VInt 2; VInt 3]] true [].

Definition weight_flat : attribute :=
  mkAttribute CollectableAttribute 1 VNone (VStr "weight")
              (VRef 0%nat) true None None.

(** [CollectableAttribute("weight", value=[[1]])]: the outer list is
    object 0, the inner list [[1]] is object 1. *)
Definition nested_store : world :=
  mkWorld 1 [[VRef 1%nat]; [VInt 1]] true [].

Definition weight_nested : attribute :=
  mkAttribute CollectableAttribute 1 VNone (VStr "weight")
              (VRef 0%nat) true None None.

(** A stand-in for [repr] and ["%s" % x] in examples: right on [None], on
    integers left out, and blind to quoting. *)
Definition sketch (h : heap) (v : pyval) : string :=
  match v with
  | VNone => "None"
  | VBool true => "True"
  | VBool false => "False"
  | VStr s => s
  | _ => "..."
  end.

(** Five calls, the second and the fourth with an index of their own. *)
Definition five_calls : list ctor_call :=
  [ NewStateVariable (VStr "score") true (VStr "State variable");
    NewCollectableAttribute (VStr "weight") VNone (Some 7) (VInt 5);
    NewCollectableAttribute (VStr "bias") VNone None VNone;
    NewCollectableAttribute (VStr "gain") VNone (Some 1) VNone;
    NewStateVariable (VStr "error") false (VStr "State variable") ].

(** Three constructions that leave the index out. *)
Definition three_calls : list ctor_call :=
  [ NewStateVariable (VStr "score") true (VStr "State variable");
    NewCollectableAttribute (VStr "weight") VNone None (VInt 5);
    NewStateVariable (VStr "error") false (VStr "State variable") ].

(** ** Reading the definitions: one equation per method *)

Ltac py_unfold :=
  unfold CollectableAttribute___copy__, new, construct,
    StateVariable___init__, CollectableAttribute___init__,
    CollectableAttribute__setVirtual, CollectableAttribute__getVirtual,
    self_reset, self__set, self__get,
    StateVariable_enable, StateVariable_reset, StateVariable__set,
    StateVariable__get, StateVariable_isEnabled,
    CollectableAttribute__setName, getitem0, CollectableAttribute_reset,
    CollectableAttribute__getName, CollectableAttribute_isSet,
    CollectableAttribute__set, CollectableAttribute__get,
    debug, run_on, liftW, global, setattr, getattr, modify, gets, bind,
    raise, ret in *.

Ltac py_run := py_unfold; cbn in *.

(** Case analysis on every test the goal is stuck on. *)
Ltac py_cases :=
  repeat (cbn; match goal with
               | |- context [if ?b then _ else _] => destruct b
               end);
  cbn.

Lemma CollectableAttribute__set_eq (val : pyval) (init : bool)
    (self : attribute) (w : world) :
  CollectableAttribute__set val init (self, w)
  = (Ok tt, (with__isset true (with__value val self), w)).
Proof. py_run. destruct (__debug__ w); reflexivity. Qed.

Lemma CollectableAttribute_reset_eq (self : attribute) (w : world) :
  CollectableAttribute_reset (self, w) = (Ok tt, (with__isset false self, w)).
Proof. py_run. destruct (__debug__ w), (_isset self); reflexivity. Qed.

Lemma StateVariable__get_eq (self : attribute) (w : world) :
  StateVariable__get (self, w)
  = (if _isset self then Ok (_value self) else Raise UnknownStateError,
     (self, w)).
Proof. py_run. destruct (_isset self); reflexivity. Qed.

Lemma StateVariable__set_eq (val : pyval) (init : bool)
    (self : attribute) (w : world) :
  StateVariable__set val init (self, w)
  = match _isenabled self with
    | Some true => (Ok tt, (with__isset true (with__value val self), w))
    | Some false => (Ok tt, (self, w))
    | None => (Raise AttributeError, (self, w))
    end.
Proof.
  py_run. destruct (_isenabled self) as [[|]|]; cbn;
    destruct (__debug__ w); reflexivity.
Qed.

Lemma StateVariable_reset_eq (self : attribute) (w : world) :
  StateVariable_reset (self, w)
  = (Ok tt, (with__value VNone (with__isset false self), w)).
Proof.
  unfold StateVariable_reset, bind. rewrite CollectableAttribute_reset_eq.
  reflexivity.
Qed.


Lemma CollectableAttribute__setName_eq (name : pyval) (self : attribute)
    (w : world) :
  CollectableAttribute__setName name (self, w)
  = match name with
    | VNone => (Ok tt, (with__name name self, w))
    | VStr EmptyString => (Raise IndexError, (self, w))
    | VStr (String c _) =>
        if Ascii.eqb c "_" then (Raise ValueError, (self, w))
        else (Ok tt, (with__name name self, w))
    | _ => (Raise ValueError, (self, w))
    end.
Proof.
  py_run. destruct name as [| b | z | s | l]; cbn; try reflexivity.
  destruct s as [| c s]; cbn; [reflexivity |].
  destruct (Ascii.eqb c "_"); reflexivity.
Qed.

Lemma CollectableAttribute___init___eq (cls : klass) (name doc : pyval)
    (index : option Z) (w : world) :
  CollectableAttribute___init__ cls name doc index VNone w
  = match index with
    | None =>
        let c := CollectableAttribute__instance_index w + 1 in
        (Ok (mkAttribute cls c doc name VNone false None None),
         with_counter c w)
    | Some i => (Ok (mkAttribute cls i doc name VNone false None None), w)
    end.
Proof.
  destruct w as [c h d act]. py_run.
  destruct index as [i |], cls; py_cases; reflexivity.
Qed.

Lemma CollectableAttribute___init___value_eq (name doc : pyval)
    (index : option Z) (value : pyval) (w : world) :
  CollectableAttribute___init__ CollectableAttribute name doc index value w
  = let set := negb (is_None value) in
    match index with
    | None =>
        let c := CollectableAttribute__instance_index w + 1 in
        (Ok (mkAttribute CollectableAttribute c doc name value set None None),
         with_counter c w)
    | Some i =>
        (Ok (mkAttribute CollectableAttribute i doc name value set None None),
         w)
    end.
Proof.
  destruct w as [c h d act]. py_run.
  destruct index as [i |], value; py_cases; reflexivity.
Qed.

Lemma StateVariable___init___eq (name : pyval) (enabled : bool) (doc : pyval)
    (w : world) :
  StateVariable___init__ StateVariable name enabled doc w
  = let c := CollectableAttribute__instance_index w + 1 in
    let en := if __debug__ w && is_active "ENFORCE_STATES_ENABLED" w
              then true else enabled in
    (Ok (mkAttribute StateVariable c doc name VNone false (Some en) (Some en)),
     with_counter c w).
Proof.
  destruct w as [c h d act]. py_run. py_cases; reflexivity.
Qed.

(** Reading [value]: [_getVirtual] resolves [_get] on the class. *)
Lemma CollectableAttribute__getVirtual_eq (self : attribute) (w : world) :
  CollectableAttribute__getVirtual (self, w)
  = (match __class__ self with
     | CollectableAttribute => Ok (_value self)
     | StateVariable =>
         if _isset self then Ok (_value self) else Raise UnknownStateError
     end, (self, w)).
Proof.
  unfold CollectableAttribute__getVirtual, self__get, bind, getattr, gets.
  cbn [fst]. destruct (__class__ self).
  - reflexivity.
  - apply StateVariable__get_eq.
Qed.

(** Writing [value]: [_setVirtual] resolves [_set] on the class. *)
Lemma CollectableAttribute__setVirtual_eq (v : pyval) (self : attribute)
    (w : world) :
  CollectableAttribute__setVirtual v (self, w)
  = match __class__ self with
    | CollectableAttribute => CollectableAttribute__set v false (self, w)
    | StateVariable => StateVariable__set v false (self, w)
    end.
Proof.
  unfold CollectableAttribute__setVirtual, self__set, bind, getattr, gets.
  cbn [fst]. destruct (__class__ self); reflexivity.
Qed.

(** [self.reset()] resolves on the class. *)
Lemma self_reset_eq (self : attribute) (w : world) :
  self_reset (self, w)
  = (Ok tt,
     (match __class__ self with
      | CollectableAttribute => with__isset false self
      | StateVariable => with__value VNone (with__isset false self)
      end, w)).
Proof.
  unfold self_reset, bind, getattr, gets.
  cbn [fst]. destruct (__class__ self).
  - apply CollectableAttribute_reset_eq.
  - apply StateVariable_reset_eq.
Qed.

(** ** Reading and writing a state variable *)

(** C2.  Reading the [value] of a [StateVariable] raises
    [UnknownStateError] while [isSet] is false and returns the stored value
    while it is true; in both cases the receiver and the world are left as
    they were, whatever the gate is. *)
Theorem StateVariable_value_read (self : attribute) (w : world) :
  __class__ self = StateVariable ->
  CollectableAttribute__getVirtual (self, w)
  = (if _isset self then Ok (_value self) else Raise UnknownStateError,
     (self, w)).
Proof.
  intros Hcls.
  rewrite CollectableAttribute__getVirtual_eq, Hcls. reflexivity.
Qed.

Lemma StateVariable_value_read_witness :
  CollectableAttribute__getVirtual (score_unset, quiet)
  = (Raise UnknownStateError, (score_unset, quiet))
  /\ CollectableAttribute__getVirtual (score_disabled, quiet)
     = (Ok (VInt 5), (score_disabled, quiet)).
Proof.
  split.
  - exact (StateVariable_value_read score_unset quiet eq_refl).
  - exact (StateVariable_value_read score_disabled quiet eq_refl).
Defined.

(** C3.  Writing the [value] of a [StateVariable] whose gate is closed
    raises nothing and leaves the receiver (so [isSet] and the stored
    value) and the world as they were; with the gate open the write is the
    base [_set]: it stores [v] and raises [isSet]. *)
Theorem StateVariable_value_write (self : attribute) (w : world) (v : pyval)
    (enabled : bool) :
  __class__ self = StateVariable ->
  _isenabled self = Some enabled ->
  if enabled then
    CollectableAttribute__setVirtual v (self, w)
    = CollectableAttribute__set v false (self, w)
    /\ exists self',
         CollectableAttribute__setVirtual v (self, w) = (Ok tt, (self', w))
         /\ _value self' = v /\ _isset self' = true
  else
    CollectableAttribute__setVirtual v (self, w) = (Ok tt, (self, w)).
Proof.
  intros Hcls Hen.
  rewrite CollectableAttribute__setVirtual_eq, Hcls, StateVariable__set_eq,
    Hen.
  destruct enabled.
  - split; [symmetry; apply CollectableAttribute__set_eq |].
    eexists; repeat split.
  - reflexivity.
Qed.

Lemma StateVariable_value_write_witness :
  CollectableAttribute__setVirtual (VInt 10) (score_disabled, quiet)
  = (Ok tt, (score_disabled, quiet))
  /\ exists self',
       CollectableAttribute__setVirtual (VInt 10) (score_set, quiet)
       = (Ok tt, (self', quiet))
       /\ _value self' = VInt 10 /\ _isset self' = true.
Proof.
  split.
  - exact (StateVariable_value_write score_disabled quiet (VInt 10) false
             eq_refl eq_refl).
  - exact (proj2 (StateVariable_value_write score_set quiet (VInt 10) true
                    eq_refl eq_refl)).
Defined.

(** ** Reset *)

(** C5.  [reset()] on a [StateVariable], whatever its state and gate,
    lowers [isSet] and puts [None] in the value slot; the gate, like every
    other field and the world, is unchanged, and the next read of [value]
    raises [UnknownStateError]. *)
Theorem StateVariable_reset_clears (self : attribute) (w : world) :
  __class__ self = StateVariable ->
  exists self',
    self_reset (self, w) = (Ok tt, (self', w))
    /\ _isset self' = false
    /\ _value self' = VNone
    /\ _isenabled self' = _isenabled self
    /\ _defaultenabled self' = _defaultenabled self
    /\ CollectableAttribute__getVirtual (self', w)
       = (Raise UnknownStateError, (self', w)).
Proof.
  intros Hcls.
  exists (with__value VNone (with__isset false self)).
  split; [rewrite self_reset_eq, Hcls; reflexivity |].
  repeat split.
  rewrite CollectableAttribute__getVirtual_eq. cbn. rewrite Hcls. reflexivity.
Qed.

Lemma StateVariable_reset_clears_witness :
  exists self',
    self_reset (score_disabled, quiet) = (Ok tt, (self', quiet))
    /\ _isset self' = false
    /\ _value self' = VNone
    /\ _isenabled self' = Some false
    /\ _defaultenabled self' = Some true
    /\ CollectableAttribute__getVirtual (self', quiet)
       = (Raise UnknownStateError, (self', quiet)).
Proof. exact (StateVariable_reset_clears score_disabled quiet eq_refl). Defined.

(** C6.  [reset()] on an instance of the base class lowers [isSet] and
    touches nothing else: the value slot keeps what was stored, and name,
    doc, index and the world are the same. *)
Theorem CollectableAttribute_reset_keeps_value (self : attribute) (w : world) :
  __class__ self = CollectableAttribute ->
  exists self',
    self_reset (self, w) = (Ok tt, (self', w))
    /\ self' = with__isset false self
    /\ _isset self' = false
    /\ _value self' = _value self
    /\ __name self' = __name self
    /\ __doc__ self' = __doc__ self
    /\ _instance_index self' = _instance_index self.
Proof.
  intros Hcls. exists (with__isset false self).
  split; [rewrite self_reset_eq, Hcls; reflexivity |].
  repeat split.
Qed.

Lemma CollectableAttribute_reset_keeps_value_witness :
  exists self',
    self_reset (weight_set, quiet) = (Ok tt, (self', quiet))
    /\ self' = with__isset false weight_set
    /\ _isset self' = false
    /\ _value self' = VInt 5
    /\ __name self' = VStr "weight"
    /\ __doc__ self' = VNone
    /\ _instance_index self' = 1.
Proof.
  exact (CollectableAttribute_reset_keeps_value weight_set quiet eq_refl).
Defined.

(** ** Names *)

(** What [_setName] does on every name but the empty string: [None] and a
    string that does not start with ['_'] are stored; a string that starts
    with ['_'] and a value that is not a string raise [ValueError], and
    the receiver keeps its name. *)
Lemma CollectableAttribute__setName_spec (name : pyval) (self : attribute)
    (w : world) :
  name <> VStr "" ->
  CollectableAttribute__setName name (self, w)
  = match name with
    | VNone => (Ok tt, (with__name name self, w))
    | VStr s =>
        if starts_with_reserved s then (Raise ValueError, (self, w))
        else (Ok tt, (with__name name self, w))
    | _ => (Raise ValueError, (self, w))
    end.
Proof.
  intros Hne. rewrite CollectableAttribute__setName_eq.
  destruct name as [| b | z | s | l]; try reflexivity.
  destruct s as [| c s]; [congruence | reflexivity].
Qed.

(** C7.  Renaming to the empty string: [name[0]] raises [IndexError], so
    the name is not stored (and the error is not the invalid-name
    [ValueError]); the receiver is left as it was. *)
Theorem CollectableAttribute__setName_empty (self : attribute) (w : world) :
  CollectableAttribute__setName (VStr "") (self, w)
  = (Raise IndexError, (self, w)).
Proof. apply CollectableAttribute__setName_eq. Qed.

(** A failed rename never changes the receiver or the world. *)
Lemma CollectableAttribute__setName_atomic (name : pyval) (self : attribute)
    (w : world) (e : exn) (s' : attribute * world) :
  CollectableAttribute__setName name (self, w) = (Raise e, s') ->
  s' = (self, w).
Proof.
  rewrite CollectableAttribute__setName_eq.
  destruct name as [| b | z | s | l]; try congruence.
  destruct s as [| c s]; [congruence |].
  destruct (Ascii.eqb c "_"); congruence.
Qed.

(** ** Construction *)

(** Construction never looks at the name: every call succeeds, stores the
    name it was given, and moves the counter only when [index] is left
    out. *)
Lemma construct_eq (c : ctor_call) (w : world) :
  exists o,
    construct c w
    = (Ok o,
       if index_omitted c
       then with_counter (CollectableAttribute__instance_index w + 1) w
       else w)
    /\ __name o = match c with
                  | NewCollectableAttribute name _ _ _ => name
                  | NewStateVariable name _ _ => name
                  end
    /\ _instance_index o
       = match c with
         | NewCollectableAttribute _ _ (Some i) _ => i
         | _ => CollectableAttribute__instance_index w + 1
         end.
Proof.
  destruct c as [name doc [i |] value | name enabled doc];
    unfold construct; cbn [index_omitted].
  - rewrite CollectableAttribute___init___value_eq.
    eexists; repeat split.
  - rewrite CollectableAttribute___init___value_eq.
    eexists; repeat split.
  - rewrite StateVariable___init___eq.
    eexists; repeat split.
Qed.

(** C1.  [CollectableAttribute("_private")], [CollectableAttribute(5)] and
    [StateVariable("_private")] all construct: [__init__] stores the name
    without the check [_setName] makes, and nothing is raised; [_setName]
    turns the same two names down with [ValueError]. *)
Theorem construct_accepts_invalid_name (w : world) :
  (exists o w',
     construct (NewCollectableAttribute (VStr "_private") VNone None VNone) w
     = (Ok o, w')
     /\ __name o = VStr "_private")
  /\ (exists o w',
        construct (NewCollectableAttribute (VInt 5) VNone None VNone) w
        = (Ok o, w')
        /\ __name o = VInt 5)
  /\ (exists o w',
        construct (NewStateVariable (VStr "_private") true
                     (VStr "State variable")) w
        = (Ok o, w')
        /\ __name o = VStr "_private")
  /\ (forall self,
        CollectableAttribute__setName (VStr "_private") (self, w)
        = (Raise ValueError, (self, w))
        /\ CollectableAttribute__setName (VInt 5) (self, w)
           = (Raise ValueError, (self, w))).
Proof.
  split; [| split; [| split]]; [| | | split; reflexivity].
  - destruct (construct_eq
                (NewCollectableAttribute (VStr "_private") VNone None VNone) w)
      as (o & Hrun & Hname & _).
    eauto.
  - destruct (construct_eq
                (NewCollectableAttribute (VInt 5) VNone None VNone) w)
      as (o & Hrun & Hname & _).
    eauto.
  - destruct (construct_eq
                (NewStateVariable (VStr "_private") true
                   (VStr "State variable")) w)
      as (o & Hrun & Hname & _).
    eauto.
Qed.

(** The indices [c + a, c + a + 1, ...] go up. *)
Lemma consecutive_sorted (c : Z) (n a : nat) :
  StronglySorted Z.lt (map (fun k => c + Z.of_nat k) (seq a n)).
Proof.
  revert a. induction n as [| n IH]; intros a; cbn.
  - constructor.
  - constructor; [apply IH |].
    apply Forall_forall. intros x Hx.
    apply in_map_iff in Hx. destruct Hx as (k & <- & Hk).
    apply in_seq in Hk. lia.
Qed.

Lemma construct_in_succession_eq (calls : list ctor_call) (w : world) :
  forallb index_omitted calls = true ->
  exists os,
    construct_in_succession calls w
    = (Ok os,
       with_counter
         (CollectableAttribute__instance_index w + Z.of_nat (List.length calls))
         w)
    /\ map _instance_index os
       = map (fun k => CollectableAttribute__instance_index w + Z.of_nat k)
             (seq 1 (List.length calls)).
Proof.
  revert w. induction calls as [| c rest IH]; intros w Hall; cbn in *.
  - exists []. split; [| reflexivity].
    unfold ret. f_equal. destruct w; unfold with_counter; cbn.
    f_equal. lia.
  - apply andb_true_iff in Hall. destruct Hall as [Hc Hrest].
    destruct (construct_eq c w) as (o & Hrun & _ & Hidx).
    rewrite Hc in Hrun.
    destruct (IH (with_counter (CollectableAttribute__instance_index w + 1) w)
                 Hrest) as (os & Hruns & Hidxs).
    exists (o :: os). split.
    + unfold bind. rewrite Hrun, Hruns. unfold ret. f_equal.
      unfold with_counter; cbn. f_equal. lia.
    + cbn [map]. f_equal.
      * rewrite Hidx. destruct c as [? ? [i |] ? | ? ? ?];
          [discriminate | |]; cbn; lia.
      * rewrite Hidxs. cbn [CollectableAttribute__instance_index with_counter].
        rewrite <- (seq_shift (List.length rest) 1), map_map.
        apply map_ext. intros k. lia.
Qed.

(** C8.  [N] constructions in succession, each leaving [index] out, give
    the instances the indices [c+1, ..., c+N] in construction order, where
    [c] is the counter before the first; these go strictly up, and the
    counter ends at [c+N].  A construction with an explicit index takes
    that index and leaves the world, so the counter, as it was. *)
Theorem indices_follow_construction_order (calls : list ctor_call)
    (w : world) :
  forallb index_omitted calls = true ->
  (exists os w',
     construct_in_succession calls w = (Ok os, w')
     /\ List.length os = List.length calls
     /\ map _instance_index os
        = map (fun k => CollectableAttribute__instance_index w + Z.of_nat k)
              (seq 1 (List.length calls))
     /\ StronglySorted Z.lt (map _instance_index os)
     /\ CollectableAttribute__instance_index w'
        = CollectableAttribute__instance_index w
          + Z.of_nat (List.length calls))
  /\ (forall name doc i value,
        exists o,
          construct (NewCollectableAttribute name doc (Some i) value) w
          = (Ok o, w)
          /\ _instance_index o = i).
Proof.
  intros Hall. split.
  - destruct (construct_in_succession_eq calls w Hall) as (os & Hrun & Hidx).
    eexists os, _. split; [exact Hrun |].
    split; [| split; [exact Hidx | split]].
    + apply (f_equal (@List.length Z)) in Hidx.
      now rewrite !length_map, length_seq in Hidx.
    + rewrite Hidx. apply consecutive_sorted.
    + reflexivity.
  - intros name doc i value.
    destruct (construct_eq (NewCollectableAttribute name doc (Some i) value) w)
      as (o & Hrun & _ & Hidx).
    eauto.
Qed.

Lemma indices_follow_construction_order_witness :
  (exists os w',
     construct_in_succession three_calls quiet = (Ok os, w')
     /\ List.length os = 3%nat
     /\ map _instance_index os = [1; 2; 3]
     /\ StronglySorted Z.lt (map _instance_index os)
     /\ CollectableAttribute__instance_index w' = 3)
  /\ (forall name doc i value,
        exists o,
          construct (NewCollectableAttribute name doc (Some i) value) quiet
          = (Ok o, quiet)
          /\ _instance_index o = i).
Proof. exact (indices_follow_construction_order three_calls quiet eq_refl). Defined.

(** ** Copying *)

Lemma new_eq (cls : klass) (name doc : pyval) (w : world) :
  new cls name doc w
  = (Ok (blank cls name doc (CollectableAttribute__instance_index w + 1)),
     with_counter (CollectableAttribute__instance_index w + 1) w).
Proof.
  destruct cls; unfold new, blank.
  - apply CollectableAttribute___init___eq.
  - rewrite StateVariable___init___eq. cbn.
    destruct (__debug__ w && is_active "ENFORCE_STATES_ENABLED" w);
      reflexivity.
Qed.

Lemma setVirtual_blank (cls : klass) (name doc : pyval) (index : Z)
    (v : pyval) (w : world) :
  CollectableAttribute__setVirtual v (blank cls name doc index, w)
  = (Ok tt, (with__isset true (with__value v (blank cls name doc index)), w)).
Proof.
  rewrite CollectableAttribute__setVirtual_eq.
  destruct cls; unfold blank; cbn [__class__].
  - apply CollectableAttribute__set_eq.
  - rewrite StateVariable__set_eq. reflexivity.
Qed.

(** [__copy__] step by step: the new instance first (the counter moves),
    then the read of [self.value], then [copy.copy], then the write. *)
Lemma CollectableAttribute___copy___eq (self : attribute) (w : world) :
  let c := CollectableAttribute__instance_index w + 1 in
  let w1 := with_counter c w in
  CollectableAttribute___copy__ (self, w)
  = match CollectableAttribute__getVirtual (self, w1) with
    | (Ok v, _) =>
        match copy_copy v w1 with
        | (Ok v', w2) =>
            (Ok (with__isset true
                   (with__value v'
                      (blank (__class__ self) (__name self) (__doc__ self) c))),
             (self, w2))
        | (Raise e, w2) => (Raise e, (self, w2))
        end
    | (Raise e, _) => (Raise e, (self, w1))
    end.
Proof.
  intros c w1.
  unfold CollectableAttribute___copy__, bind at 1 2 3 4,
    CollectableAttribute__getName, getattr, gets, liftW at 1.
  cbn [fst snd]. rewrite new_eq. fold c w1.
  unfold bind at 1. rewrite CollectableAttribute__getVirtual_eq.
  destruct (__class__ self), (_isset self); try reflexivity;
    unfold bind at 1, liftW at 1; cbn [fst snd];
    destruct (copy_copy (_value self) w1) as [[v' | e] w2];
    try reflexivity;
    unfold bind, liftW, run_on; cbn [fst snd];
    rewrite setVirtual_blank; reflexivity.
Qed.

Lemma copy_copy_shallow (v : pyval) (w : world) :
  allocated (lists w) v = true ->
  exists v' w',
    copy_copy v w = (Ok v', w')
    /\ is_shallow_copy (lists w) (lists w') v v'
    /\ CollectableAttribute__instance_index w'
       = CollectableAttribute__instance_index w.
Proof.
  intros Halloc. destruct v as [| b | z | s | l];
    try (eexists _, w; repeat split; reflexivity).
  cbn in Halloc. apply Nat.ltb_lt in Halloc.
  destruct (nth_error (lists w) l) as [items |] eqn:Hl.
  - eexists _, _. unfold copy_copy, bind, gets. rewrite Hl.
    unfold alloc, bind, gets, modify, ret. cbn.
    split; [reflexivity |]. split; [| reflexivity].
    exists items. auto.
  - apply nth_error_None in Hl. lia.
Qed.

(** C9.  Copying a [StateVariable] whose [isSet] is false raises
    [UnknownStateError]: the read of [self.value] goes through
    [StateVariable._get].  No copy is returned; the receiver is unchanged,
    and the world differs only by the counter, moved by the instance built
    before the read. *)
Theorem copy_unset_StateVariable_raises (self : attribute) (w : world) :
  __class__ self = StateVariable ->
  _isset self = false ->
  CollectableAttribute___copy__ (self, w)
  = (Raise UnknownStateError,
     (self, with_counter (CollectableAttribute__instance_index w + 1) w)).
Proof.
  intros Hcls Hset. rewrite CollectableAttribute___copy___eq. cbn zeta.
  rewrite CollectableAttribute__getVirtual_eq, Hcls, Hset. reflexivity.
Qed.

Lemma copy_unset_StateVariable_raises_witness :
  CollectableAttribute___copy__ (score_unset, quiet)
  = (Raise UnknownStateError, (score_unset, with_counter 1 quiet)).
Proof.
  exact (copy_unset_StateVariable_raises score_unset quiet eq_refl eq_refl).
Defined.

(** The stale instance is what construction with a value followed by
    [reset()] leaves. *)
Lemma weight_stale_reached :
  construct (NewCollectableAttribute (VStr "weight") VNone None (VInt 5))
    quiet
  = (Ok weight_set, with_counter 1 quiet)
  /\ self_reset (weight_set, quiet) = (Ok tt, (weight_stale, quiet)).
Proof. split; reflexivity. Qed.

(** C10, as stated, fails on an instance that was assigned and then reset:
    its [isSet] is false, yet the copy holds 5, not [None]. *)
Lemma copy_of_reset_attribute_not_None :
  __class__ weight_stale = CollectableAttribute
  /\ _isset weight_stale = false
  /\ ~ (exists copied s',
          CollectableAttribute___copy__ (weight_stale, quiet)
          = (Ok copied, s')
          /\ _isset copied = true
          /\ _value copied = VNone).
Proof.
  repeat split. intros (copied & s' & Hrun & _ & Hval).
  vm_compute in Hrun. injection Hrun as <- _.
  discriminate Hval.
Qed.

(** C10, amended.  Copying an instance of the base class whose [isSet] is
    false succeeds; the copy has [isSet] true, and its value is the shallow
    copy of whatever the value slot of the original holds: [None] when
    nothing was ever assigned, the value from before the [reset()]
    otherwise. *)
Theorem copy_unset_base_copies_slot (self : attribute) (w : world) :
  __class__ self = CollectableAttribute ->
  _isset self = false ->
  allocated (lists w) (_value self) = true ->
  exists copied w',
    CollectableAttribute___copy__ (self, w) = (Ok copied, (self, w'))
    /\ __class__ copied = CollectableAttribute
    /\ _isset copied = true
    /\ is_shallow_copy (lists w) (lists w') (_value self) (_value copied)
    /\ (_value self = VNone -> _value copied = VNone).
Proof.
  intros Hcls Hset Halloc.
  rewrite CollectableAttribute___copy___eq. cbn zeta.
  rewrite CollectableAttribute__getVirtual_eq, Hcls.
  destruct (copy_copy_shallow (_value self)
              (with_counter (CollectableAttribute__instance_index w + 1) w)
              Halloc) as (v' & w' & Hcopy & Hshallow & _).
  rewrite Hcopy. eexists _, w'. split; [reflexivity |].
  cbn. repeat split; [exact Hshallow |].
  intros Hnone. rewrite Hnone in Hshallow. apply Hshallow.
Qed.

Lemma copy_unset_base_copies_slot_witness :
  exists copied w',
    CollectableAttribute___copy__ (weight_unset, quiet)
    = (Ok copied, (weight_unset, w'))
    /\ __class__ copied = CollectableAttribute
    /\ _isset copied = true
    /\ is_shallow_copy (lists quiet) (lists w') VNone (_value copied)
    /\ (VNone = VNone -> _value copied = VNone).
Proof.
  exact (copy_unset_base_copies_slot weight_unset quiet
           eq_refl eq_refl eq_refl).
Defined.

(** ** What a copy shares *)

Lemma closed_items (h : heap) (l : loc) (items : list pyval) (x : pyval) :
  closed h = true -> nth_error h l = Some items -> In x items ->
  allocated h x = true.
Proof.
  intros Hclosed Hl Hx. unfold closed in Hclosed.
  rewrite forallb_forall in Hclosed.
  specialize (Hclosed items (nth_error_In _ _ Hl)).
  rewrite forallb_forall in Hclosed. auto.
Qed.

(** A value of a closed store looks the same in every store that agrees
    with it on its locations. *)
Lemma view_agree (h h' : heap) :
  closed h = true ->
  (forall l, (l < List.length h)%nat -> nth_error h' l = nth_error h l) ->
  forall depth v,
    allocated h v = true -> view depth h' v = view depth h v.
Proof.
  intros Hclosed Hagree.
  induction depth as [| d IH]; intros v Halloc;
    destruct v as [| b | z | s | l]; try reflexivity.
  cbn in *. apply Nat.ltb_lt in Halloc.
  rewrite (Hagree l Halloc).
  destruct (nth_error h l) as [items |] eqn:Hl; [| reflexivity].
  f_equal. apply map_ext_in. intros x Hx.
  apply IH. eapply closed_items; eassumption.
Qed.

(** A change of the object at the end of the store touches no other. *)
Lemma list_mutate_last (h : heap) (items : list pyval)
    (f : list pyval -> list pyval) (w w'' : world) :
  lists w = h ++ [items] ->
  list_mutate (VRef (List.length h)) f w = (Ok tt, w'') ->
  lists w'' = h ++ [f items].
Proof.
  intros Hw Hmut.
  assert (Hskip : skipn (S (List.length h)) (h ++ [items]) = []).
  { apply skipn_all2. rewrite length_app. cbn. lia. }
  unfold list_mutate, bind, gets, modify in Hmut. rewrite Hw in Hmut.
  rewrite nth_error_app2, Nat.sub_diag in Hmut by lia.
  cbn [nth_error] in Hmut.
  rewrite Hskip, firstn_app, Nat.sub_diag, firstn_all, firstn_O, app_nil_r
    in Hmut.
  injection Hmut as <-. reflexivity.
Qed.

(** The nested instance is what construction with the outer list as value
    gives. *)
Lemma weight_nested_reached :
  construct (NewCollectableAttribute (VStr "weight") VNone None (VRef 0%nat))
    (with_counter 0 nested_store)
  = (Ok weight_nested, nested_store)
  /\ view 2 (lists nested_store) (_value weight_nested)
     = TList [TList [TInt 1]].
Proof. split; reflexivity. Qed.

(** C4, as stated, fails on a nested list: the copy of [[[1]]] is a new
    outer list around the same inner list, so appending 4 to the inner
    list through the copy shows in the value of the original. *)
Lemma copy_shares_nested_list :
  _isset weight_nested = true
  /\ ~ independent_copy weight_nested nested_store.
Proof.
  split; [reflexivity |]. intros Hind.
  pose (copied := mkAttribute CollectableAttribute 2 VNone (VStr "weight")
                    (VRef 2%nat) true None None).
  pose (w' := mkWorld 2 [[VRef 1%nat]; [VInt 1]; [VRef 1%nat]] true []).
  pose (w'' := mkWorld 2 [[VRef 1%nat]; [VInt 1; VInt 4]; [VRef 1%nat]]
                 true []).
  specialize (Hind copied weight_nested w' eq_refl
                1%nat (fun items => items ++ [VInt 4]) w'' 2%nat).
  assert (Hreach : reachable (lists w') (_value copied) 1%nat).
  { eapply reach_item with (items := [VRef 1%nat]) (x := VRef 1%nat).
    - reflexivity.
    - left; reflexivity.
    - apply reach_self. }
  specialize (Hind Hreach eq_refl). discriminate Hind.
Qed.

(** C4, amended.  Copying an attribute whose value is set yields an
    instance of the same class with the same name and doc, [isSet] true,
    and as value a shallow copy of the original's value: an immutable value
    as it is, a list as a new list object with the same items.  Neither
    the copy nor any later in-place change of the copy's own list changes
    what the value of the original looks like, to any depth; the lists
    nested inside it are the original's. *)
Theorem copy_is_shallow (self : attribute) (w : world) :
  _isset self = true ->
  closed (lists w) = true ->
  allocated (lists w) (_value self) = true ->
  exists copied w',
    CollectableAttribute___copy__ (self, w) = (Ok copied, (self, w'))
    /\ __class__ copied = __class__ self
    /\ __name copied = __name self
    /\ __doc__ copied = __doc__ self
    /\ _isset copied = true
    /\ is_shallow_copy (lists w) (lists w') (_value self) (_value copied)
    /\ (forall depth : nat,
          view depth (lists w') (_value self)
          = view depth (lists w) (_value self))
    /\ (forall (f : list pyval -> list pyval) (w'' : world) (depth : nat),
          list_mutate (_value copied) f w' = (Ok tt, w'') ->
          view depth (lists w'') (_value self)
          = view depth (lists w') (_value self)).
Proof.
  intros Hset Hclosed Halloc.
  rewrite CollectableAttribute___copy___eq. cbn zeta.
  rewrite CollectableAttribute__getVirtual_eq, Hset.
  destruct (copy_copy_shallow (_value self)
              (with_counter (CollectableAttribute__instance_index w + 1) w)
              Halloc) as (v' & w' & Hcopy & Hshallow & _).
  cbn [lists with_counter] in Hshallow.
  replace (match __class__ self with
           | CollectableAttribute => Ok (_value self)
           | StateVariable => Ok (_value self)
           end) with (Ok (_value self)) by (destruct (__class__ self); reflexivity).
  rewrite Hcopy. eexists _, w'. split; [reflexivity |].
  cbn. repeat split; [exact Hshallow | |].
  - intros depth.
    apply view_agree; [exact Hclosed | | exact Halloc].
    intros l0 Hl0.
    destruct (_value self) as [| b | z | s | l];
      try (destruct Hshallow as [_ ->]; reflexivity).
    destruct Hshallow as (items & _ & _ & ->).
    apply nth_error_app1, Hl0.
  - intros f w'' depth Hmut.
    assert (Hsame : forall l0, (l0 < List.length (lists w))%nat ->
              nth_error (lists w'') l0 = nth_error (lists w) l0
              /\ nth_error (lists w') l0 = nth_error (lists w) l0).
    { intros l0 Hl0.
      destruct (_value self) as [| b | z | s | l];
        try (destruct Hshallow as [-> _]; discriminate Hmut).
      destruct Hshallow as (items & _ & -> & Hw').
      rewrite (list_mutate_last _ _ _ _ _ Hw' Hmut), Hw'.
      split; apply nth_error_app1, Hl0. }
    rewrite (view_agree (lists w) (lists w'') Hclosed
               (fun l0 Hl0 => proj1 (Hsame l0 Hl0)) depth _ Halloc).
    rewrite (view_agree (lists w) (lists w') Hclosed
               (fun l0 Hl0 => proj2 (Hsame l0 Hl0)) depth _ Halloc).
    reflexivity.
Qed.

Lemma copy_is_shallow_witness :
  exists copied w',
    CollectableAttribute___copy__ (weight_flat, flat_store)
    = (Ok copied, (weight_flat, w'))
    /\ __class__ copied = CollectableAttribute
    /\ __name copied = VStr "weight"
    /\ __doc__ copied = VNone
    /\ _isset copied = true
    /\ is_shallow_copy (lists flat_store) (lists w') (VRef 0%nat)
         (_value copied)
    /\ (forall depth : nat,
          view depth (lists w') (VRef 0%nat)
          = view depth (lists flat_store) (VRef 0%nat))
    /\ (forall (f : list pyval -> list pyval) (w'' : world) (depth : nat),
          list_mutate (_value copied) f w' = (Ok tt, w'') ->
          view depth (lists w'') (VRef 0%nat)
          = view depth (lists w') (VRef 0%nat)).
Proof.
  exact (copy_is_shallow weight_flat flat_store eq_refl eq_refl eq_refl).
Defined.

(** ** Worked scenarios *)

(** [sv = StateVariable("score")]; [sv.value = 5]; [sv.enable(False)];
    [sv.value = 10]: the second write is dropped and 5 is read back. *)
Example scenario_disabled_write :
  (run_on score_unset
     (CollectableAttribute__setVirtual (VInt 5) ;;
      StateVariable_enable false ;;
      CollectableAttribute__setVirtual (VInt 10) ;;
      CollectableAttribute__getVirtual)) quiet
  = (Ok (VInt 5, score_disabled), quiet).
Proof. reflexivity. Qed.

(** ... then [sv.reset()]: the read raises. *)
Example scenario_reset_then_read :
  fst ((self_reset ;; CollectableAttribute__getVirtual) (score_disabled, quiet))
  = Raise UnknownStateError.
Proof. reflexivity. Qed.

(** [ca = CollectableAttribute("weight", value=[1,2,3])]; [c2 = copy(ca)];
    [c2.value.append(4)]: [ca.value] is still [[1,2,3]] and [c2.value] is
    [[1,2,3,4]]. *)
Example scenario_copy_then_append :
  exists c2 w,
    (c2 <- CollectableAttribute___copy__ ;;
     liftW (list_append (_value c2) (VInt 4)) ;;
     ret c2) (weight_flat, flat_store)
    = (Ok c2, (weight_flat, w))
    /\ view 1 (lists w) (_value weight_flat) = TList [TInt 1; TInt 2; TInt 3]
    /\ view 1 (lists w) (_value c2)
       = TList [TInt 1; TInt 2; TInt 3; TInt 4].
Proof. eexists _, _. repeat split. Qed.

(** The same on [[[1]]], appending to the inner list: the original shows
    the 4 as well. *)
Example scenario_copy_then_append_inside :
  exists c2 w,
    (c2 <- CollectableAttribute___copy__ ;;
     liftW (list_append (VRef 1%nat) (VInt 4)) ;;
     ret c2) (weight_nested, nested_store)
    = (Ok c2, (weight_nested, w))
    /\ view 2 (lists w) (_value weight_nested) = TList [TList [TInt 1; TInt 4]]
    /\ view 2 (lists w) (_value c2) = TList [TList [TInt 1; TInt 4]].
Proof. eexists _, _. repeat split. Qed.

(** ** The gate *)

Lemma StateVariable_enable_eq (value : bool) (self : attribute) (w : world) :
  StateVariable_enable value (self, w)
  = match _isenabled self with
    | Some e =>
        (Ok tt, (if Bool.eqb e value then self else with__isenabled value self,
                 w))
    | None => (Raise AttributeError, (self, w))
    end.
Proof.
  py_run. destruct (_isenabled self) as [e |]; cbn; [| reflexivity].
  destruct (Bool.eqb e value); [reflexivity |].
  cbn. destruct (__debug__ w); reflexivity.
Qed.

(** X1.  [enable(flag)] on a state variable whose gate exists raises
    nothing, leaves the gate at [flag] and touches nothing else; when the
    gate is already at [flag] the instance is left exactly as it was, so a
    second [enable(flag)] changes nothing. *)
Theorem StateVariable_enable_idempotent (self : attribute) (w : world)
    (gate flag : bool) :
  _isenabled self = Some gate ->
  exists self',
    StateVariable_enable flag (self, w) = (Ok tt, (self', w))
    /\ _isenabled self' = Some flag
    /\ _isset self' = _isset self
    /\ _value self' = _value self
    /\ _defaultenabled self' = _defaultenabled self
    /\ __name self' = __name self
    /\ _instance_index self' = _instance_index self
    /\ (gate = flag -> self' = self)
    /\ StateVariable_enable flag (self', w) = (Ok tt, (self', w)).
Proof.
  intros Hgate. rewrite StateVariable_enable_eq, Hgate.
  destruct (Bool.eqb gate flag) eqn:E.
  - apply Bool.eqb_prop in E. subst flag.
    exists self. repeat split; try assumption.
    rewrite StateVariable_enable_eq, Hgate, Bool.eqb_reflx. reflexivity.
  - exists (with__isenabled flag self). repeat split.
    + intros ->. rewrite Bool.eqb_reflx in E. discriminate E.
    + rewrite StateVariable_enable_eq. cbn. rewrite Bool.eqb_reflx.
      reflexivity.
Qed.

Lemma StateVariable_enable_idempotent_witness :
  exists self',
    StateVariable_enable false (score_set, quiet) = (Ok tt, (self', quiet))
    /\ _isenabled self' = Some false
    /\ _isset self' = true
    /\ _value self' = VInt 5
    /\ _defaultenabled self' = Some true
    /\ __name self' = VStr "score"
    /\ _instance_index self' = 1
    /\ (true = false -> self' = score_set)
    /\ StateVariable_enable false (self', quiet) = (Ok tt, (self', quiet)).
Proof.
  exact (StateVariable_enable_idempotent score_set quiet true false eq_refl).
Defined.

(** X2.  What is written while the gate is closed is gone for good:
    closing the gate, writing [v] and opening the gate again leaves
    [isSet] and the value as they were before, whatever they were. *)
Theorem write_while_disabled_is_lost (self : attribute) (w : world)
    (gate : bool) (v : pyval) :
  __class__ self = StateVariable ->
  _isenabled self = Some gate ->
  exists self',
    (StateVariable_enable false ;;
     CollectableAttribute__setVirtual v ;;
     StateVariable_enable true) (self, w)
    = (Ok tt, (self', w))
    /\ _isset self' = _isset self
    /\ _value self' = _value self
    /\ _isenabled self' = Some true
    /\ CollectableAttribute__getVirtual (self', w)
       = (if _isset self then Ok (_value self) else Raise UnknownStateError,
          (self', w)).
Proof.
  intros Hcls Hgate.
  unfold bind at 1. rewrite StateVariable_enable_eq, Hgate.
  set (closed_ := if Bool.eqb gate false then self
                  else with__isenabled false self).
  assert (Hc : __class__ closed_ = StateVariable
               /\ _isenabled closed_ = Some false
               /\ _isset closed_ = _isset self
               /\ _value closed_ = _value self).
  { unfold closed_. destruct gate; cbn; auto. }
  destruct Hc as (Hc1 & Hc2 & Hc3 & Hc4).
  unfold bind at 1.
  rewrite CollectableAttribute__setVirtual_eq, Hc1, StateVariable__set_eq, Hc2.
  rewrite StateVariable_enable_eq, Hc2. cbn [Bool.eqb].
  exists (with__isenabled true closed_). split; [reflexivity |].
  rewrite CollectableAttribute__getVirtual_eq.
  cbn [with__isenabled __class__ _isset _value _isenabled].
  rewrite Hc1, Hc3, Hc4. repeat split.
Qed.

Lemma write_while_disabled_is_lost_witness :
  exists self',
    (StateVariable_enable false ;;
     CollectableAttribute__setVirtual (VInt 10) ;;
     StateVariable_enable true) (score_set, quiet)
    = (Ok tt, (self', quiet))
    /\ _isset self' = true
    /\ _value self' = VInt 5
    /\ _isenabled self' = Some true
    /\ CollectableAttribute__getVirtual (self', quiet)
       = (Ok (VInt 5), (self', quiet)).
Proof.
  exact (write_while_disabled_is_lost score_set quiet true (VInt 10)
           eq_refl eq_refl).
Defined.

(** ** Sequences of uses *)

Lemma exec_invariant (P : attribute * world -> Prop) :
  (forall o s, P s -> P (snd (step o s))) ->
  forall ops s, P s -> P (exec ops s).
Proof.
  intros Hstep ops. unfold exec.
  induction ops as [| o ops IH]; intros s Hs; cbn; auto.
Qed.

(** Every way one use can change the receiver; the world is never
    changed. *)
Lemma step_cases (o : op) (self : attribute) (w : world) :
  exists r self',
    step o (self, w) = (r, (self', w))
    /\ (self' = self
        \/ (exists v, o = OpSet v
                      /\ accepts_writes self = true
                      /\ self' = with__isset true (with__value v self))
        \/ (o = OpReset
            /\ self' = match __class__ self with
                       | CollectableAttribute => with__isset false self
                       | StateVariable =>
                           with__value VNone (with__isset false self)
                       end)
        \/ (exists flag, o = OpEnable flag
                         /\ __class__ self = StateVariable
                         /\ self' = with__isenabled flag self)
        \/ (exists name, o = OpSetName name
                         /\ self' = with__name name self)).
Proof.
  destruct o as [| v | | flag | name]; unfold step.
  - unfold bind. rewrite CollectableAttribute__getVirtual_eq.
    destruct (__class__ self); [| destruct (_isset self)];
      eexists _, self; (split; [reflexivity | left; reflexivity]).
  - rewrite CollectableAttribute__setVirtual_eq.
    unfold accepts_writes.
    destruct (__class__ self).
    + rewrite CollectableAttribute__set_eq. eexists _, _.
      split; [reflexivity |]. right; left. exists v. auto.
    + rewrite StateVariable__set_eq.
      destruct (_isenabled self) as [[|] |]; eexists _, _;
        (split; [reflexivity |]); [right; left; exists v | left | left]; auto.
  - rewrite self_reset_eq. eexists _, _. split; [reflexivity |].
    right; right; left. auto.
  - unfold bind, getattr, gets, raise. cbn [fst].
    destruct (__class__ self) eqn:Hcls.
    + eexists _, self. split; [reflexivity | left; reflexivity].
    + rewrite StateVariable_enable_eq.
      destruct (_isenabled self) as [e |];
        [destruct (Bool.eqb e flag) |]; eexists _, _;
        (split; [reflexivity |]);
        [left | right; right; right; left; exists flag | left]; auto.
  - rewrite CollectableAttribute__setName_eq.
    destruct name as [| b | z | s | l];
      try (eexists _, self; split; [reflexivity | left; reflexivity]).
    + eexists _, _. split; [reflexivity |].
      right; right; right; right. eexists; eauto.
    + destruct s as [| c s];
        [eexists _, self; split; [reflexivity | left; reflexivity] |].
      destruct (Ascii.eqb c "_"); eexists _, _;
        (split; [reflexivity |]);
        [left | right; right; right; right; eexists]; eauto.
Qed.

(** X3.  Whatever is done to it, no use changes the class, the index, the
    doc or the default gate of an instance, nor anything in the world (the
    counter, the list objects); the name changes only through
    [_setName]. *)
Theorem uses_keep_identity (self : attribute) (w : world) (ops : list op) :
  snd (exec ops (self, w)) = w
  /\ __class__ (fst (exec ops (self, w))) = __class__ self
  /\ _instance_index (fst (exec ops (self, w))) = _instance_index self
  /\ __doc__ (fst (exec ops (self, w))) = __doc__ self
  /\ _defaultenabled (fst (exec ops (self, w))) = _defaultenabled self
  /\ (existsb is_rename ops = false ->
      __name (fst (exec ops (self, w))) = __name self).
Proof.
  assert (Hframe : forall ops s,
            snd (exec ops s) = snd s
            /\ __class__ (fst (exec ops s)) = __class__ (fst s)
            /\ _instance_index (fst (exec ops s)) = _instance_index (fst s)
            /\ __doc__ (fst (exec ops s)) = __doc__ (fst s)
            /\ _defaultenabled (fst (exec ops s)) = _defaultenabled (fst s)).
  { intros ops' s.
    apply (exec_invariant (fun s' =>
             snd s' = snd s
             /\ __class__ (fst s') = __class__ (fst s)
             /\ _instance_index (fst s') = _instance_index (fst s)
             /\ __doc__ (fst s') = __doc__ (fst s)
             /\ _defaultenabled (fst s') = _defaultenabled (fst s)));
      [| repeat split].
    intros o [o1 w1] (H1 & H2 & H3 & H4 & H5). cbn [fst snd] in *.
    destruct (step_cases o o1 w1) as (r & o2 & -> & Hcase). cbn [fst snd].
    split; [exact H1 |].
    destruct Hcase as [-> | [(v & _ & _ & ->) | [(_ & ->) |
                      [(flag & _ & _ & ->) | (name & _ & ->)]]]];
      try destruct (__class__ o1) eqn:E; cbn; rewrite ?E; auto. }
  destruct (Hframe ops (self, w)) as (H1 & H2 & H3 & H4 & H5).
  repeat split; try assumption.
  clear. revert self. unfold exec.
  induction ops as [| o ops IH]; intros self Hno; [reflexivity |].
  cbn in Hno. apply orb_false_iff in Hno. destruct Hno as [Ho Hops].
  cbn [fold_left]. destruct (step_cases o self w) as (r & o2 & -> & Hcase).
  cbn [snd]. rewrite (IH o2 Hops).
  destruct Hcase as [-> | [(v & _ & _ & ->) | [(_ & ->) |
                    [(flag & _ & _ & ->) | (name & -> & _)]]]];
    try discriminate Ho; destruct (__class__ self); reflexivity.
Qed.

Lemma uses_keep_identity_witness :
  snd (exec [OpSet (VInt 5); OpEnable false; OpReset; OpGet]
         (score_unset, quiet)) = quiet
  /\ __class__ (fst (exec [OpSet (VInt 5); OpEnable false; OpReset; OpGet]
                       (score_unset, quiet))) = StateVariable
  /\ _instance_index (fst (exec [OpSet (VInt 5); OpEnable false; OpReset; OpGet]
                             (score_unset, quiet))) = 1
  /\ __doc__ (fst (exec [OpSet (VInt 5); OpEnable false; OpReset; OpGet]
                     (score_unset, quiet))) = VStr "State variable"
  /\ _defaultenabled (fst (exec [OpSet (VInt 5); OpEnable false; OpReset; OpGet]
                             (score_unset, quiet))) = Some true
  /\ (false = false ->
      __name (fst (exec [OpSet (VInt 5); OpEnable false; OpReset; OpGet]
                     (score_unset, quiet))) = VStr "score").
Proof.
  exact (uses_keep_identity score_unset quiet
           [OpSet (VInt 5); OpEnable false; OpReset; OpGet]).
Defined.

(** What every state of a constructed state variable satisfies. *)
Lemma StateVariable_states (name : pyval) (enabled : bool) (doc : pyval)
    (w : world) (ops : list op) :
  exists o w1,
    construct (NewStateVariable name enabled doc) w = (Ok o, w1)
    /\ __class__ (fst (exec ops (o, w1))) = StateVariable
    /\ (exists gate, _isenabled (fst (exec ops (o, w1))) = Some gate)
    /\ (_isset (fst (exec ops (o, w1))) = true
        \/ _value (fst (exec ops (o, w1))) = VNone).
Proof.
  unfold construct. rewrite StateVariable___init___eq. cbn zeta.
  eexists _, _. split; [reflexivity |].
  apply (exec_invariant (fun s =>
           __class__ (fst s) = StateVariable
           /\ (exists gate, _isenabled (fst s) = Some gate)
           /\ (_isset (fst s) = true \/ _value (fst s) = VNone))).
  - intros o [o1 w1] (Hcls & (gate & Hgate) & Hval). cbn [fst] in *.
    destruct (step_cases o o1 w1) as (r & o2 & -> & Hcase). cbn [fst snd].
    destruct Hcase as [-> | [(v & _ & _ & ->) | [(_ & ->) |
                      [(flag & _ & _ & ->) | (n & _ & ->)]]]];
      rewrite ?Hcls; cbn; eauto 6.
  - cbn. eauto.
Qed.

(** X4.  A state variable never keeps a value it does not report: from
    construction on, after any uses, either [isSet] is true or the value
    slot holds [None]. *)
Theorem StateVariable_unset_holds_nothing (name : pyval) (enabled : bool)
    (doc : pyval) (w : world) (ops : list op) :
  exists o w1,
    construct (NewStateVariable name enabled doc) w = (Ok o, w1)
    /\ (_isset (fst (exec ops (o, w1))) = true
        \/ _value (fst (exec ops (o, w1))) = VNone).
Proof.
  destruct (StateVariable_states name enabled doc w ops)
    as (o & w1 & Hrun & _ & _ & Hval).
  eauto.
Qed.

(** X5.  On a constructed state variable, after any uses, a use raises
    only in two ways: a read while [isSet] is false raises
    [UnknownStateError], and a rename may raise [ValueError] or
    [IndexError].  Writes, resets and [enable] never raise. *)
Theorem StateVariable_uses_raise_only (name : pyval) (enabled : bool)
    (doc : pyval) (w : world) (ops : list op) (o : op) :
  exists sv w1,
    construct (NewStateVariable name enabled doc) w = (Ok sv, w1)
    /\ (fst (step o (exec ops (sv, w1))) = Ok tt
        \/ (o = OpGet
            /\ _isset (fst (exec ops (sv, w1))) = false
            /\ fst (step o (exec ops (sv, w1))) = Raise UnknownStateError)
        \/ (exists n, o = OpSetName n
                      /\ (fst (step o (exec ops (sv, w1))) = Raise ValueError
                          \/ fst (step o (exec ops (sv, w1)))
                             = Raise IndexError))).
Proof.
  destruct (StateVariable_states name enabled doc w ops)
    as (sv & w1 & Hrun & Hcls & (gate & Hgate) & _).
  exists sv, w1. split; [exact Hrun |].
  destruct (exec ops (sv, w1)) as [self w2]. cbn [fst] in *.
  destruct o as [| v | | flag | n]; unfold step.
  - unfold bind. rewrite CollectableAttribute__getVirtual_eq, Hcls.
    destruct (_isset self); [left; reflexivity | right; left; auto].
  - left. rewrite CollectableAttribute__setVirtual_eq, Hcls,
      StateVariable__set_eq, Hgate.
    destruct gate; reflexivity.
  - left. rewrite self_reset_eq. reflexivity.
  - left. unfold bind, getattr, gets. cbn [fst]. rewrite Hcls.
    rewrite StateVariable_enable_eq, Hgate. reflexivity.
  - rewrite CollectableAttribute__setName_eq.
    destruct n as [| b | z | s | l]; cbn; eauto 7.
    destruct s as [| c s]; cbn; [eauto 7 |].
    destruct (Ascii.eqb c "_"); cbn; eauto 7.
Qed.

(** ** Writes and reads *)

(** X6.  Where writes take effect (the base class, or a state variable
    with the gate open) the last write wins and is read back: after
    [x.value = v1; x.value = v2] the read gives [v2], [isSet] is true, and
    nothing else of the instance has changed.  This holds for [None] as
    well: assigning [None] marks the instance as set. *)
Theorem last_write_is_read_back (self : attribute) (w : world)
    (v1 v2 : pyval) :
  accepts_writes self = true ->
  (CollectableAttribute__setVirtual v1 ;;
   CollectableAttribute__setVirtual v2 ;;
   CollectableAttribute__getVirtual) (self, w)
  = (Ok v2, (with__isset true (with__value v2 self), w)).
Proof.
  intros Hacc.
  assert (Hset : forall v o,
            accepts_writes o = true ->
            CollectableAttribute__setVirtual v (o, w)
            = (Ok tt, (with__isset true (with__value v o), w))).
  { intros v o Ho. rewrite CollectableAttribute__setVirtual_eq.
    unfold accepts_writes in Ho. destruct (__class__ o).
    - apply CollectableAttribute__set_eq.
    - rewrite StateVariable__set_eq.
      destruct (_isenabled o) as [[|] |]; [reflexivity | |]; discriminate Ho. }
  unfold bind at 1. rewrite (Hset v1 self Hacc).
  unfold bind. rewrite Hset by exact Hacc.
  rewrite CollectableAttribute__getVirtual_eq. cbn.
  destruct (__class__ self); reflexivity.
Qed.

Lemma last_write_is_read_back_witness :
  (CollectableAttribute__setVirtual (VInt 7) ;;
   CollectableAttribute__setVirtual VNone ;;
   CollectableAttribute__getVirtual) (score_unset, quiet)
  = (Ok VNone, (with__isset true (with__value VNone score_unset), quiet)).
Proof.
  exact (last_write_is_read_back score_unset quiet (VInt 7) VNone eq_refl).
Defined.

(** X7.  On the base class a value outlives [reset()]: after
    [x.value = v; x.reset()] the flag [isSet] is false, yet reading
    [x.value] raises nothing and still gives [v]. *)
Theorem base_read_after_reset_is_stale (self : attribute) (w : world)
    (v : pyval) :
  __class__ self = CollectableAttribute ->
  exists self',
    (CollectableAttribute__setVirtual v ;; self_reset) (self, w)
    = (Ok tt, (self', w))
    /\ _isset self' = false
    /\ CollectableAttribute__getVirtual (self', w) = (Ok v, (self', w)).
Proof.
  intros Hcls.
  unfold bind. rewrite CollectableAttribute__setVirtual_eq, Hcls,
    CollectableAttribute__set_eq, self_reset_eq.
  cbn [__class__ with__isset with__value]. rewrite Hcls.
  eexists. split; [reflexivity |]. split; [reflexivity |].
  rewrite CollectableAttribute__getVirtual_eq. cbn. rewrite Hcls. reflexivity.
Qed.

Lemma base_read_after_reset_is_stale_witness :
  exists self',
    (CollectableAttribute__setVirtual (VInt 5) ;; self_reset)
      (weight_unset, quiet)
    = (Ok tt, (self', quiet))
    /\ _isset self' = false
    /\ CollectableAttribute__getVirtual (self', quiet)
       = (Ok (VInt 5), (self', quiet)).
Proof.
  exact (base_read_after_reset_is_stale weight_unset quiet (VInt 5) eq_refl).
Defined.

(** ** More on construction *)

(** X8.  [CollectableAttribute(name, doc, index, value)] always constructs;
    the instance is set exactly when [value] is not [None], and reading its
    value gives [value] back.  So [value=None] at construction leaves the
    instance unset, while the assignment [x.value = None] on it sets it. *)
Theorem construct_with_value (name doc : pyval) (index : option Z)
    (value : pyval) (w : world) :
  exists o w',
    construct (NewCollectableAttribute name doc index value) w = (Ok o, w')
    /\ _isset o = negb (is_None value)
    /\ CollectableAttribute__getVirtual (o, w') = (Ok value, (o, w'))
    /\ exists o2,
         CollectableAttribute__setVirtual VNone (o, w') = (Ok tt, (o2, w'))
         /\ _isset o2 = true
         /\ _value o2 = VNone.
Proof.
  unfold construct. rewrite CollectableAttribute___init___value_eq. cbn zeta.
  destruct index as [i |]; eexists _, _; (split; [reflexivity |]);
    rewrite CollectableAttribute__getVirtual_eq,
      CollectableAttribute__setVirtual_eq, CollectableAttribute__set_eq;
    cbn; repeat split; eexists; repeat split.
Qed.

(** X9.  [StateVariable(name, enabled, doc)] always constructs an unset
    instance whose read raises; its gate and default gate are [enabled],
    except that with [__debug__] on and ['ENFORCE_STATES_ENABLED'] in
    [debug.active] both are true whatever [enabled] is.  Under [python -O]
    ([__debug__] off) the category has no effect. *)
Theorem construct_StateVariable (name : pyval) (enabled : bool) (doc : pyval)
    (w : world) :
  exists o w',
    construct (NewStateVariable name enabled doc) w = (Ok o, w')
    /\ _isset o = false
    /\ _value o = VNone
    /\ _isenabled o = _defaultenabled o
    /\ _isenabled o
       = Some (if __debug__ w && is_active "ENFORCE_STATES_ENABLED" w
               then true else enabled)
    /\ CollectableAttribute__getVirtual (o, w')
       = (Raise UnknownStateError, (o, w')).
Proof.
  unfold construct. rewrite StateVariable___init___eq. cbn zeta.
  eexists _, _. split; [reflexivity |].
  rewrite CollectableAttribute__getVirtual_eq. cbn. repeat split.
Qed.

(** X10.  Indices are not checked against the counter: an explicit index
    equal to the next value of the counter is taken as it is, and the next
    construction that leaves [index] out gets the same index. *)
Theorem explicit_index_can_collide (name doc value : pyval) (c : ctor_call)
    (w : world) :
  index_omitted c = true ->
  exists o1 o2 w',
    construct_in_succession
      [ NewCollectableAttribute name doc
          (Some (CollectableAttribute__instance_index w + 1)) value; c ] w
    = (Ok [o1; o2], w')
    /\ _instance_index o1 = _instance_index o2.
Proof.
  intros Hc. cbn [construct_in_succession].
  destruct (construct_eq
              (NewCollectableAttribute name doc
                 (Some (CollectableAttribute__instance_index w + 1)) value) w)
    as (o1 & Hrun1 & _ & Hidx1).
  destruct (construct_eq c w) as (o2 & Hrun2 & _ & Hidx2).
  cbn [index_omitted] in Hrun1. rewrite Hc in Hrun2.
  exists o1, o2. eexists.
  unfold bind, ret. rewrite Hrun1, Hrun2. split; [reflexivity |].
  rewrite Hidx1, Hidx2.
  destruct c as [? ? [i |] ? | ? ? ?]; [discriminate Hc | |]; reflexivity.
Qed.

Lemma explicit_index_can_collide_witness :
  exists o1 o2 w',
    construct_in_succession
      [ NewCollectableAttribute (VStr "weight") VNone (Some (0 + 1)) VNone;
        NewStateVariable (VStr "score") true (VStr "State variable") ] quiet
    = (Ok [o1; o2], w')
    /\ _instance_index o1 = _instance_index o2.
Proof.
  exact (explicit_index_can_collide (VStr "weight") VNone VNone
           (NewStateVariable (VStr "score") true (VStr "State variable"))
           quiet eq_refl).
Defined.

Lemma with_counter_twice (a b : Z) (w : world) :
  with_counter a (with_counter b w) = with_counter a w.
Proof. reflexivity. Qed.

(** X11.  Any run of constructor calls, with explicit indices among them
    or not, constructs every instance.  The counter ends up moved by the
    number of calls that left [index] out and nothing else in the world
    changes; the indices handed out by the counter go strictly up in
    construction order and all lie above the counter's starting value,
    whatever explicit indices come in between. *)
Theorem construct_in_succession_mixed (calls : list ctor_call) (w : world) :
  exists os,
    construct_in_succession calls w
    = (Ok os,
       with_counter
         (CollectableAttribute__instance_index w
          + Z.of_nat (List.length (filter index_omitted calls))) w)
    /\ List.length os = List.length calls
    /\ StronglySorted Z.lt (assigned_indices calls os)
    /\ Forall (fun i => CollectableAttribute__instance_index w < i)
         (assigned_indices calls os).
Proof.
  revert w. induction calls as [| c rest IH]; intros w.
  - exists []. cbn. repeat split; try constructor.
    unfold ret. f_equal. destruct w; unfold with_counter; cbn. f_equal. lia.
  - destruct (construct_eq c w) as (o & Hrun & _ & Hidx).
    set (w1 := if index_omitted c
               then with_counter (CollectableAttribute__instance_index w + 1) w
               else w) in *.
    destruct (IH w1) as (os & Hruns & Hlen & Hsorted & Habove).
    exists (o :: os).
    cbn [construct_in_succession]. unfold bind, ret. rewrite Hrun, Hruns.
    unfold assigned_indices in *. cbn [combine filter fst List.length].
    destruct (index_omitted c) eqn:Hc; subst w1;
      cbn [map snd List.length CollectableAttribute__instance_index
           with_counter] in *.
    + rewrite with_counter_twice.
      assert (Hi : _instance_index o
                   = CollectableAttribute__instance_index w + 1).
      { rewrite Hidx. destruct c as [? ? [i |] ? | ? ? ?];
          [discriminate Hc | |]; reflexivity. }
      rewrite Hi. repeat split.
      * do 2 f_equal. lia.
      * now rewrite Hlen.
      * constructor; [exact Hsorted | exact Habove].
      * constructor; [lia |].
        eapply Forall_impl; [| exact Habove]. cbn. intros; lia.
    + repeat split; try assumption. now rewrite Hlen.
Qed.

(** ** More on copying *)

Lemma copy_copy_frame (v : pyval) (w : world) :
  exists r w',
    copy_copy v w = (r, w')
    /\ CollectableAttribute__instance_index w'
       = CollectableAttribute__instance_index w
    /\ (lists w' = lists w \/ exists items, lists w' = lists w ++ [items]).
Proof.
  destruct v as [| b | z | s | l];
    try (eexists _, w; repeat split; left; reflexivity).
  unfold copy_copy, bind, gets.
  destruct (nth_error (lists w) l) as [items |].
  - eexists _, _. split; [reflexivity |]. cbn. split; [reflexivity |].
    right. eauto.
  - eexists _, w. repeat split. left; reflexivity.
Qed.

(** X12.  Whatever it returns or raises, [__copy__] leaves the receiver as
    it was and takes exactly one index from the counter; it adds at most
    one list object to the store and changes none that was there. *)
Theorem copy_frame (self : attribute) (w : world) :
  exists r w',
    CollectableAttribute___copy__ (self, w) = (r, (self, w'))
    /\ CollectableAttribute__instance_index w'
       = CollectableAttribute__instance_index w + 1
    /\ (List.length (lists w') <= List.length (lists w) + 1)%nat
    /\ forall l, (l < List.length (lists w))%nat ->
                 nth_error (lists w') l = nth_error (lists w) l.
Proof.
  rewrite CollectableAttribute___copy___eq. cbn zeta.
  rewrite CollectableAttribute__getVirtual_eq.
  set (w1 := with_counter (CollectableAttribute__instance_index w + 1) w).
  assert (Hraise : forall e : exn,
            exists (r : outcome attribute) w',
              (Raise e, (self, w1)) = (r, (self, w'))
              /\ CollectableAttribute__instance_index w'
                 = CollectableAttribute__instance_index w + 1
              /\ (List.length (lists w') <= List.length (lists w) + 1)%nat
              /\ forall l, (l < List.length (lists w))%nat ->
                           nth_error (lists w') l = nth_error (lists w) l).
  { intros e. exists (Raise e), w1. repeat split. cbn. lia. }
  assert (Hcopy : exists (r : outcome attribute) w',
            match copy_copy (_value self) w1 with
            | (Ok v', w2) =>
                (Ok (with__isset true
                       (with__value v'
                          (blank (__class__ self) (__name self) (__doc__ self)
                             (CollectableAttribute__instance_index w + 1)))),
                 (self, w2))
            | (Raise e, w2) => (Raise e, (self, w2))
            end = (r, (self, w'))
            /\ CollectableAttribute__instance_index w'
               = CollectableAttribute__instance_index w + 1
            /\ (List.length (lists w') <= List.length (lists w) + 1)%nat
            /\ forall l, (l < List.length (lists w))%nat ->
                         nth_error (lists w') l = nth_error (lists w) l).
  { destruct (copy_copy_frame (_value self) w1)
      as (r & w2 & Hrun & Hctr & Hlists).
    rewrite Hrun.
    assert (Hl : (List.length (lists w2) <= List.length (lists w) + 1)%nat
                 /\ forall l, (l < List.length (lists w))%nat ->
                              nth_error (lists w2) l = nth_error (lists w) l).
    { destruct Hlists as [-> | (items & ->)]; cbn [lists w1 with_counter].
      - split; [lia | reflexivity].
      - split; [rewrite length_app; cbn; lia |].
        intros l Hl. apply nth_error_app1, Hl. }
    destruct r as [v' | e]; eexists _, w2;
      (split; [reflexivity |]); (split; [exact Hctr | exact Hl]). }
  destruct (__class__ self); [exact Hcopy |].
  destruct (_isset self); [exact Hcopy | apply Hraise].
Qed.

(** X13.  The copy of a state variable does not inherit the gate: when the
    original is set, its copy is a state variable with the gate and the
    default gate open, even if the original's gate is closed, and its index
    is the next value of the counter, not the original's. *)
Theorem copy_of_StateVariable_is_enabled (self : attribute) (w : world) :
  __class__ self = StateVariable ->
  _isset self = true ->
  allocated (lists w) (_value self) = true ->
  exists copied s',
    CollectableAttribute___copy__ (self, w) = (Ok copied, s')
    /\ __class__ copied = StateVariable
    /\ _isenabled copied = Some true
    /\ _defaultenabled copied = Some true
    /\ _instance_index copied = CollectableAttribute__instance_index w + 1.
Proof.
  intros Hcls Hset Halloc.
  rewrite CollectableAttribute___copy___eq. cbn zeta.
  rewrite CollectableAttribute__getVirtual_eq, Hcls, Hset.
  destruct (copy_copy_shallow (_value self)
              (with_counter (CollectableAttribute__instance_index w + 1) w)
              Halloc) as (v' & w' & Hcopy & _).
  rewrite Hcopy. eexists _, _. split; [reflexivity |]. repeat split.
Qed.

Lemma copy_of_StateVariable_is_enabled_witness :
  exists copied s',
    CollectableAttribute___copy__ (score_disabled, quiet) = (Ok copied, s')
    /\ __class__ copied = StateVariable
    /\ _isenabled copied = Some true
    /\ _defaultenabled copied = Some true
    /\ _instance_index copied = 0 + 1.
Proof.
  exact (copy_of_StateVariable_is_enabled score_disabled quiet
           eq_refl eq_refl eq_refl).
Defined.

(** ** More on names *)

(** X14.  Renaming and reading the name back: a valid name ([None], or a
    non-empty string that does not start with ['_']) is stored and read
    back, and nothing but the name changes; any other name raises
    ([IndexError] for the empty string, [ValueError] otherwise) and the
    instance keeps the name it had. *)
Theorem rename_then_read (name : pyval) (self : attribute) (w : world) :
  (CollectableAttribute__setName name ;; CollectableAttribute__getName)
    (self, w)
  = (if valid_name name then
       (Ok name, (with__name name self, w))
     else
       (Raise match name with VStr EmptyString => IndexError
                         | _ => ValueError end,
        (self, w)))
  /\ CollectableAttribute__getName
       (snd (CollectableAttribute__setName name (self, w)))
     = (Ok (if valid_name name then name else __name self),
        snd (CollectableAttribute__setName name (self, w))).
Proof.
  unfold bind. rewrite CollectableAttribute__setName_eq.
  destruct name as [| b | z | s | l]; cbn; auto.
  destruct s as [| c s]; cbn; auto.
  destruct (Ascii.eqb c "_"); cbn; auto.
Qed.

(** ** String forms *)

Lemma append_cancel_l (s x y : string) :
  (s ++ x)%string = (s ++ y)%string -> x = y.
Proof.
  induction s as [| c s IH]; cbn; intros H; [exact H |].
  injection H as H. auto.
Qed.

Lemma append_empty_r (s : string) : (s ++ "")%string = s.
Proof. induction s as [| c s IH]; cbn; [| rewrite IH]; reflexivity. Qed.

Lemma append_assoc (a b c : string) :
  ((a ++ b) ++ c)%string = (a ++ (b ++ c))%string.
Proof. induction a as [| x a IH]; cbn; [| rewrite IH]; reflexivity. Qed.

(** The string form: the name as Python prints it, then ['*'] when set,
    then (for a state variable) ['+'] when the gate is open. *)
Lemma self___str___eq (str_ : heap -> pyval -> string) (self : attribute)
    (w : world) :
  self___str__ str_ (self, w)
  = match __class__ self, _isenabled self with
    | CollectableAttribute, _ =>
        (Ok (str_ (lists w) (__name self)
             ++ (if _isset self then "*" else ""))%string, (self, w))
    | StateVariable, Some en =>
        (Ok (str_ (lists w) (__name self)
             ++ ((if _isset self then "*" else "")
                 ++ (if en then "+" else "")))%string, (self, w))
    | StateVariable, None => (Raise AttributeError, (self, w))
    end.
Proof.
  unfold self___str__, StateVariable___str__, CollectableAttribute___str__,
    StateVariable_isEnabled, CollectableAttribute__getName,
    CollectableAttribute_isSet, bind, getattr, global, gets, ret, raise.
  destruct self as [cls idx doc name val isset gate dflt]. cbn.
  destruct cls; [destruct isset |
    destruct gate as [[|] |]; destruct isset];
    cbn; rewrite ?append_empty_r, ?append_assoc; reflexivity.
Qed.

(** X15.  The string form of a state variable tells its flags: it never
    raises on an instance whose gate exists and changes nothing, and two
    state variables of the same name whose string forms agree have the
    same [isSet] and the same gate. *)
Theorem str_tells_flags (str_ : heap -> pyval -> string) (a b : attribute)
    (w : world) (gate_a gate_b : bool) :
  __class__ a = StateVariable ->
  __class__ b = StateVariable ->
  _isenabled a = Some gate_a ->
  _isenabled b = Some gate_b ->
  __name a = __name b ->
  exists text_a text_b,
    self___str__ str_ (a, w) = (Ok text_a, (a, w))
    /\ self___str__ str_ (b, w) = (Ok text_b, (b, w))
    /\ (text_a = text_b -> _isset a = _isset b /\ gate_a = gate_b)
    /\ (_isset a = _isset b -> gate_a = gate_b -> text_a = text_b).
Proof.
  intros Ha Hb Hga Hgb Hname.
  rewrite !self___str___eq, Ha, Hb, Hga, Hgb, Hname.
  eexists _, _. split; [reflexivity |]. split; [reflexivity |]. split.
  - intros H. apply append_cancel_l in H.
    destruct (_isset a), (_isset b), gate_a, gate_b;
      try discriminate H; auto.
  - intros -> ->. reflexivity.
Qed.

Lemma str_tells_flags_witness :
  exists text_a text_b,
    self___str__ sketch (score_set, quiet) = (Ok text_a, (score_set, quiet))
    /\ self___str__ sketch (score_disabled, quiet)
       = (Ok text_b, (score_disabled, quiet))
    /\ (text_a = text_b -> true = true /\ true = false)
    /\ (true = true -> true = false -> text_a = text_b).
Proof.
  exact (str_tells_flags sketch score_set score_disabled quiet true false
           eq_refl eq_refl eq_refl eq_refl eq_refl).
Defined.

(** X16.  [__repr__] is safe in every state: it raises nothing, not even
    on an unset state variable, and changes nothing.  It reads the value
    only when [isSet] is true; when [isSet] is false it prints [None] as
    the value, so what the slot holds (a value from before a [reset()]) does
    not show. *)
Theorem repr_is_safe (repr_ : heap -> pyval -> string) (self : attribute)
    (w : world) :
  CollectableAttribute___repr__ repr_ (self, w)
  = (Ok (klass___name__ (__class__ self)
         ++ "(name=" ++ repr_ (lists w) (__name self)
         ++ ", doc=" ++ repr_ (lists w) (__doc__ self)
         ++ ", value="
         ++ repr_ (lists w) (if _isset self then _value self else VNone)
         ++ ")")%string,
     (self, w)).
Proof.
  destruct self as [cls idx doc name val isset gate dflt].
  unfold CollectableAttribute___repr__, bind at 1, getattr at 1, gets at 1.
  cbn [fst _isset]. destruct isset; cbn [negb].
  - unfold bind at 1. rewrite CollectableAttribute__getVirtual_eq.
    cbn [__class__ _isset _value]. destruct cls; reflexivity.
  - reflexivity.
Qed.

(** ** Copies of flat values *)

Lemma atom_reaches_nothing (h : heap) (v : pyval) (l : loc) :
  is_atom v = true -> ~ reachable h v l.
Proof. intros Hv Hr. destruct Hr; discriminate Hv. Qed.

(** X17.  For a flat value (an immutable value, or a list of immutable
    items) the copy is independent in full: no in-place change of anything
    the copy's value leads to shows in the value of the original. *)
Theorem copy_of_flat_value_is_independent (self : attribute) (w : world) :
  _isset self = true ->
  closed (lists w) = true ->
  flat (lists w) (_value self) = true ->
  independent_copy self w.
Proof.
  intros Hset Hclosed Hflat copied self' w' Hrun l f w'' depth Hreach Hmut.
  assert (Halloc : allocated (lists w) (_value self) = true).
  { destruct (_value self) as [| b | z | s | l0]; try reflexivity.
    cbn in *. destruct (nth_error (lists w) l0) eqn:E; [| discriminate].
    apply Nat.ltb_lt, nth_error_Some. congruence. }
  rewrite CollectableAttribute___copy___eq in Hrun. cbn zeta in Hrun.
  rewrite CollectableAttribute__getVirtual_eq, Hset in Hrun.
  destruct (copy_copy_shallow (_value self)
              (with_counter (CollectableAttribute__instance_index w + 1) w)
              Halloc) as (v' & w2 & Hcopy & Hshallow & _).
  cbn [lists with_counter] in Hshallow.
  assert (Hres : copied = with__isset true
                   (with__value v'
                      (blank (__class__ self) (__name self) (__doc__ self)
                         (CollectableAttribute__instance_index w + 1)))
                 /\ w' = w2).
  { destruct (__class__ self); rewrite Hcopy in Hrun;
      injection Hrun as <- _ <-; auto. }
  destruct Hres as [-> ->]. cbn [_value with__isset with__value] in *.
  destruct (_value self) as [| b | z | s | l0] eqn:Hv;
    try (destruct Hshallow as [-> _];
         exfalso; eapply atom_reaches_nothing; [| exact Hreach]; reflexivity).
  destruct Hshallow as (items & Hl0 & -> & Hw2).
  cbn [flat] in Hflat. rewrite Hl0 in Hflat.
  assert (Hl : l = List.length (lists w)).
  { rewrite Hw2 in Hreach. inversion Hreach as [| l1 items' x l' Hnth Hin Hr];
      subst; [reflexivity |].
    rewrite nth_error_app2, Nat.sub_diag in Hnth by lia.
    injection Hnth as <-.
    rewrite forallb_forall in Hflat.
    exfalso. eapply atom_reaches_nothing; [apply Hflat, Hin | exact Hr]. }
  subst l.
  rewrite (list_mutate_last _ _ _ _ _ Hw2 Hmut), Hw2.
  rewrite (view_agree (lists w) (lists w ++ [f items]) Hclosed
             (fun l1 Hl1 => nth_error_app1 _ _ Hl1) depth _ Halloc).
  rewrite (view_agree (lists w) (lists w ++ [items]) Hclosed
             (fun l1 Hl1 => nth_error_app1 _ _ Hl1) depth _ Halloc).
  reflexivity.
Qed.

Lemma copy_of_flat_value_is_independent_witness :
  independent_copy weight_flat flat_store.
Proof.
  exact (copy_of_flat_value_is_independent weight_flat flat_store
           eq_refl eq_refl eq_refl).
Defined.

(** Five calls, two of them with an index of their own: the instances get
    1, 7, 2, 1, 3, and the counter handed out 1, 2, 3. *)
Example scenario_mixed_indices :
  exists os w,
    construct_in_succession five_calls quiet = (Ok os, w)
    /\ map _instance_index os = [1; 7; 2; 1; 3]
    /\ assigned_indices five_calls os = [1; 2; 3]
    /\ CollectableAttribute__instance_index w = 3.
Proof. eexists _, _. repeat split. Qed.
